(** * happy-coder: the Claude API pricing module ([src/api/pricing.ts])

    A shallow embedding of the pricing table, of [getModelPricing] and of
    [calculateCost], and the properties of the specification proved on it.

    Modelling choices, all taken from the TypeScript source:
    - a [number] is kept abstract behind the class [JSNumber]; the instance
      [float_number] is the IEEE 754 binary64 arithmetic the program runs
      on, the instance [Q_number] the exact rationals the specification
      speaks of;
    - a string is a [string] of bytes holding the UTF-8 encoding of the
      JavaScript string, as Rocq's string literals do;
    - the record objects live in a store and are named by a location, so
      that "the entry of key k" and "the default record" keep the identity
      they have in JavaScript even where their fields are equal;
    - [MODEL_PRICING] is the finite map of the properties written in its
      object literal; a property read [MODEL_PRICING[key]] goes through
      [getProperty], which falls back on the properties every object
      literal inherits from [Object.prototype]. *)

From Stdlib Require Import ZArith QArith String Ascii Floats Lia Lqa.
From stdpp Require Import gmap strings list.

Open Scope string_scope.

(** ** Numbers *)

(** The operations the module performs on values of type [number]. *)
Class JSNumber (num : Type) := {
  (** a decimal literal of the source text *)
  lit : Q → num;
  add : num → num → num;
  mul : num → num → num;
  div : num → num → num;
  (** ToBoolean, as [||] applies it *)
  truthy : num → bool;
  (** the number [undefined] converts to when it enters a product *)
  nan : num
}.

Module Float.

Definition of_Z (z : Z) : float :=
  match z with
  | Z0 => PrimFloat.zero
  | Zpos p => PrimFloat.of_uint63 (Uint63.of_Z (Zpos p))
  | Zneg p => PrimFloat.opp (PrimFloat.of_uint63 (Uint63.of_Z (Zpos p)))
  end.

(** The binary64 value of a decimal literal [n / 10^k]: numerator and
    denominator are below 2^53 for every literal of the module, so both
    conversions are exact and the one division rounds to nearest. *)
Definition of_Q (q : Q) : float :=
  PrimFloat.div (of_Z (Qnum q)) (of_Z (Zpos (Qden q))).

Definition is_nan (x : float) : bool := negb (PrimFloat.eqb x x).

(** [+0], [-0] and [NaN] are the falsy numbers. *)
Definition truthy (x : float) : bool :=
  negb (PrimFloat.eqb x PrimFloat.zero || is_nan x).

End Float.

#[export] Instance float_number : JSNumber float := {
  lit := Float.of_Q;
  add := PrimFloat.add;
  mul := PrimFloat.mul;
  div := PrimFloat.div;
  truthy := Float.truthy;
  nan := PrimFloat.nan
}.

(** The rationals are the idealised arithmetic: they have no [NaN], and
    the instance reads it as 0. The properties over the rationals that
    depend on a rate are stated for models that resolve to a record. *)
#[export] Instance Q_number : JSNumber Q := {
  lit := λ q, q;
  add := Qplus;
  mul := Qmult;
  div := Qdiv;
  truthy := λ q, negb (Qeq_bool q 0);
  nan := 0%Q
}.

(** ** Strings *)

Definition lower_ascii (c : ascii) : ascii :=
  let n := N_of_ascii c in
  if ((65 <=? n) && (n <=? 90))%N then ascii_of_N (n + 32) else c.

(** The string with its letters A-Z in lower case and nothing else
    changed. *)
Fixpoint lowerASCII (s : string) : string :=
  match s with
  | EmptyString => EmptyString
  | String c s' => String (lower_ascii c) (lowerASCII s')
  end.

(** [String.prototype.toLowerCase] on the UTF-8 bytes. The letters A-Z are
    mapped to a-z. Two code points outside ASCII have a lower-case form
    with an ASCII letter in it and are mapped too: U+212A KELVIN SIGN
    (bytes 226 132 170) becomes "k", and U+0130 (bytes 196 176) becomes
    "i" followed by U+0307 (bytes 204 135). Every other code point outside
    ASCII is left as it is: its lower-case form is again outside ASCII, and
    the module only searches the result for ASCII patterns. *)
Fixpoint toLowerCase (s : string) : string :=
  match s with
  | EmptyString => EmptyString
  | String "226" (String "132" (String "170" s')) =>
      String "k" (toLowerCase s')
  | String "196" (String "176" s') =>
      String "i" (String "204" (String "135" (toLowerCase s')))
  | String c s' => String (lower_ascii c) (toLowerCase s')
  end.

(** [s.includes(pat)]: [pat] occurs in [s] at some position. *)
Fixpoint includes (s pat : string) : bool :=
  String.prefix pat s ||
  match s with
  | EmptyString => false
  | String _ s' => includes s' pat
  end.

(** ** The pricing records and the table *)

Record ModelPricing (num : Type) := {
  inputPer1M : num;
  outputPer1M : num;
  cacheWritePer1M : num;
  cacheReadPer1M : num
}.

Arguments inputPer1M {num} _.
Arguments outputPer1M {num} _.
Arguments cacheWritePer1M {num} _.
Arguments cacheReadPer1M {num} _.

(** The object literal of [MODEL_PRICING], property by property, with the
    decimal literals as they are written. *)
Definition MODEL_PRICING_literal : list (string * ModelPricing Q) :=
  [ ("claude-opus-4-5-20250514",
      {| inputPer1M := 15; outputPer1M := 75;
         cacheWritePer1M := 18.75; cacheReadPer1M := 1.5 |});
    ("claude-sonnet-4-20250514",
      {| inputPer1M := 3; outputPer1M := 15;
         cacheWritePer1M := 3.75; cacheReadPer1M := 0.30 |});
    ("claude-3-5-sonnet-20241022",
      {| inputPer1M := 3; outputPer1M := 15;
         cacheWritePer1M := 3.75; cacheReadPer1M := 0.30 |});
    ("claude-3-5-sonnet-latest",
      {| inputPer1M := 3; outputPer1M := 15;
         cacheWritePer1M := 3.75; cacheReadPer1M := 0.30 |});
    ("claude-3-5-sonnet-20240620",
      {| inputPer1M := 3; outputPer1M := 15;
         cacheWritePer1M := 3.75; cacheReadPer1M := 0.30 |});
    ("claude-3-5-haiku-20241022",
      {| inputPer1M := 0.80; outputPer1M := 4;
         cacheWritePer1M := 1.00; cacheReadPer1M := 0.08 |});
    ("claude-3-5-haiku-latest",
      {| inputPer1M := 0.80; outputPer1M := 4;
         cacheWritePer1M := 1.00; cacheReadPer1M := 0.08 |});
    ("claude-3-opus-20240229",
      {| inputPer1M := 15; outputPer1M := 75;
         cacheWritePer1M := 18.75; cacheReadPer1M := 1.5 |});
    ("claude-3-opus-latest",
      {| inputPer1M := 15; outputPer1M := 75;
         cacheWritePer1M := 18.75; cacheReadPer1M := 1.5 |});
    ("claude-3-sonnet-20240229",
      {| inputPer1M := 3; outputPer1M := 15;
         cacheWritePer1M := 3.75; cacheReadPer1M := 0.30 |});
    ("claude-3-haiku-20240307",
      {| inputPer1M := 0.25; outputPer1M := 1.25;
         cacheWritePer1M := 0.3125; cacheReadPer1M := 0.025 |}) ]%Q.

(** The object literal of [DEFAULT_PRICING]. *)
Definition DEFAULT_PRICING_literal : ModelPricing Q :=
  {| inputPer1M := 3; outputPer1M := 15;
     cacheWritePer1M := 3.75; cacheReadPer1M := 0.30 |}%Q.

(** A reference to a record object is its index in the store. *)
Abbreviation loc := nat (only parsing).

(** Loading the module allocates one object per property of the table, in
    the order of the literal, and then the default record. The table maps
    each key to the reference of its object. *)
Definition MODEL_PRICING : gmap string loc :=
  list_to_map
    (zip MODEL_PRICING_literal.*1 (seq 0 (length MODEL_PRICING_literal))).

Definition DEFAULT_PRICING : loc := length MODEL_PRICING_literal.

(** The properties an object literal inherits from [Object.prototype]:
    those of ECMAScript and the accessors of its Annex B. Each is a
    function, and [__proto__] reads as [Object.prototype] itself. None of
    these objects is a pricing record; they are allocated after the
    records. *)
Definition Object_prototype_names : list string :=
  [ "constructor"; "__defineGetter__"; "__defineSetter__"; "hasOwnProperty";
    "__lookupGetter__"; "__lookupSetter__"; "isPrototypeOf";
    "propertyIsEnumerable"; "toString"; "valueOf"; "__proto__";
    "toLocaleString" ].

Definition Object_prototype : gmap string loc :=
  list_to_map
    (zip Object_prototype_names
         (seq (S DEFAULT_PRICING) (length Object_prototype_names))).

(** [object[key]] on an object literal: the property of the object itself,
    else the inherited one, else [None] for [undefined]. *)
Definition getProperty (object : gmap string loc) (key : string) : option loc :=
  match object !! key with
  | Some value => Some value
  | None => Object_prototype !! key
  end.

(** The model argument is the name of an inherited property. *)
Definition inherited (model : option string) : bool :=
  match model with
  | Some name => bool_decide (name ∈ Object_prototype_names)
  | None => false
  end.

Section Objects.

Context {num : Type} `{!JSNumber num}.

(** Evaluating an object literal turns each decimal literal into a number. *)
Definition evalLiteral (p : ModelPricing Q) : ModelPricing num :=
  {| inputPer1M := lit (inputPer1M p);
     outputPer1M := lit (outputPer1M p);
     cacheWritePer1M := lit (cacheWritePer1M p);
     cacheReadPer1M := lit (cacheReadPer1M p) |}.

(** The store of record objects, indexed by reference. *)
Definition objects : list (ModelPricing num) :=
  evalLiteral <$> (MODEL_PRICING_literal.*2 ++ [DEFAULT_PRICING_literal])%list.

End Objects.

(** ** getModelPricing *)

(** The value returned is a reference to an object, or [None] for
    [undefined], which a property read yields on a missing key. [!model]
    holds of [undefined] and of the empty string; every object is truthy. *)
Definition getModelPricing (model : option string) : option loc :=
  match model with
  | None => Some DEFAULT_PRICING
  | Some model =>
    if String.eqb model "" then Some DEFAULT_PRICING
    else
      match getProperty MODEL_PRICING model with
      | Some entry => Some entry
      | None =>
        let modelLower := toLowerCase model in
        if includes modelLower "opus-4" || includes modelLower "opus-4.5" then
          getProperty MODEL_PRICING "claude-opus-4-5-20250514"
        else if includes modelLower "sonnet-4" then
          getProperty MODEL_PRICING "claude-sonnet-4-20250514"
        else if includes modelLower "3-5-sonnet" || includes modelLower "3.5-sonnet" then
          getProperty MODEL_PRICING "claude-3-5-sonnet-20241022"
        else if includes modelLower "3-5-haiku" || includes modelLower "3.5-haiku" then
          getProperty MODEL_PRICING "claude-3-5-haiku-20241022"
        else if includes modelLower "opus" then
          getProperty MODEL_PRICING "claude-3-opus-20240229"
        else if includes modelLower "haiku" then
          getProperty MODEL_PRICING "claude-3-haiku-20240307"
        else if includes modelLower "sonnet" then
          getProperty MODEL_PRICING "claude-3-5-sonnet-20241022"
        else Some DEFAULT_PRICING
      end
  end.

(** ** calculateCost *)

Section Cost.

Context {num : Type} `{!JSNumber num}.

Record UsageTokens := {
  input_tokens : num;
  output_tokens : num;
  cache_creation_input_tokens : option num;
  cache_read_input_tokens : option num
}.

Record CostBreakdown := {
  total : num;
  input : num;
  output : num;
  cacheWrite : num;
  cacheRead : num
}.

(** [x || 0] for an optional number: [0] when [x] is [undefined] or falsy. *)
Definition orZero (x : option num) : num :=
  match x with
  | Some n => if truthy n then n else lit 0
  | None => lit 0
  end.

(** [pricing.field] in a product: the field of the record behind the
    reference, and [NaN] for the [undefined] that an object which is no
    pricing record has there. *)
Definition rate (field : ModelPricing num → num) (pricing : loc) : num :=
  match objects !! pricing with
  | Some record => field record
  | None => nan
  end.

(** A property read on [undefined] throws, which is the result [None]. *)
Definition calculateCost (usage : UsageTokens) (model : option string)
    : option CostBreakdown :=
  pricing ← getModelPricing model;
  let inputCost :=
    mul (div (input_tokens usage) (lit 1000000)) (rate inputPer1M pricing) in
  let outputCost :=
    mul (div (output_tokens usage) (lit 1000000)) (rate outputPer1M pricing) in
  let cacheWriteCost :=
    mul (div (orZero (cache_creation_input_tokens usage)) (lit 1000000))
        (rate cacheWritePer1M pricing) in
  let cacheReadCost :=
    mul (div (orZero (cache_read_input_tokens usage)) (lit 1000000))
        (rate cacheReadPer1M pricing) in
  Some {| total := add (add (add inputCost outputCost) cacheWriteCost) cacheReadCost;
          input := inputCost;
          output := outputCost;
          cacheWrite := cacheWriteCost;
          cacheRead := cacheReadCost |}.

End Cost.

Arguments UsageTokens num : clear implicits.
Arguments CostBreakdown num : clear implicits.

(** ** The family rules in the words of the specification *)

(** An ordered list of rules, each a list of patterns and the key of the
    table entry it resolves to. *)
Definition family_rules : list (list string * string) :=
  [ (["opus-4"; "opus-4.5"], "claude-opus-4-5-20250514");
    (["sonnet-4"], "claude-sonnet-4-20250514");
    (["3-5-sonnet"; "3.5-sonnet"], "claude-3-5-sonnet-20241022");
    (["3-5-haiku"; "3.5-haiku"], "claude-3-5-haiku-20241022");
    (["opus"], "claude-3-opus-20240229");
    (["haiku"], "claude-3-haiku-20240307");
    (["sonnet"], "claude-3-5-sonnet-20241022") ].

(** A rule matches when the lower-cased identifier contains one of its
    patterns. *)
Definition rule_matches (modelLower : string) (r : list string * string) : bool :=
  existsb (includes modelLower) r.1.

(** The rules are tried from the top and the first that matches decides;
    the default record is the fallback. *)
Definition resolve_family (rules : list (list string * string))
    (modelLower : string) : option loc :=
  match find (rule_matches modelLower) rules with
  | Some r => MODEL_PRICING !! r.2
  | None => Some DEFAULT_PRICING
  end.

(** ** Component costs, the rate convention and sums of usages *)

(** The cost of one component in the words of the specification. *)
Definition component_cost {num : Type} `{!JSNumber num}
    (token_count rate_per_million : num) : num :=
  mul (div token_count (lit 1000000)) rate_per_million.

(** The convention over the rationals, on the rates as written. *)
Definition follows_convention (p : ModelPricing Q) : Prop :=
  cacheWritePer1M p == inputPer1M p * 1.25 ∧
  cacheReadPer1M p == inputPer1M p * 0.10.

(** The convention in binary64, up to an absolute error of 10^-12. *)
Definition near (x y : float) : bool :=
  PrimFloat.leb (PrimFloat.abs (PrimFloat.sub x y)) (lit (1 # 1000000000000)).

Definition follows_convention_float (p : ModelPricing float) : bool :=
  near (cacheWritePer1M p) (mul (inputPer1M p) (lit 1.25)) &&
  near (cacheReadPer1M p) (mul (inputPer1M p) (lit 0.10)).

(** [usage] is the fieldwise sum of [usage1] and [usage2], an absent cache
    field counting as zero. *)
Definition usage_sum (usage usage1 usage2 : UsageTokens Q) : Prop :=
  (input_tokens usage == input_tokens usage1 + input_tokens usage2
   ∧ output_tokens usage == output_tokens usage1 + output_tokens usage2
   ∧ default 0 (cache_creation_input_tokens usage)
     == default 0 (cache_creation_input_tokens usage1)
        + default 0 (cache_creation_input_tokens usage2)
   ∧ default 0 (cache_read_input_tokens usage)
     == default 0 (cache_read_input_tokens usage1)
        + default 0 (cache_read_input_tokens usage2))%Q.

(** ** The module as a program on a store *)

(** The same two functions with every access to the objects of the module
    made explicit. The table object behind the exported constant
    [MODEL_PRICING] and the record objects are mutable in JavaScript, so
    the functions can run on other stores than the one the module loads,
    and a caller can write to the store between two calls. *)
Module Effects.

Section Store.

Context {num : Type} `{!JSNumber num}.

Record Store := {
  table : gmap string loc;
  records : list (ModelPricing num)
}.

(** The store after the module is loaded. *)
Definition initial : Store := {| table := MODEL_PRICING; records := objects |}.

(** A computation runs on a store, and returns a value or throws. *)
Definition Comp (A : Type) : Type := Store → option A * Store.

Definition ret {A} (a : A) : Comp A := λ σ, (Some a, σ).

Definition bind {A B} (k : A → Comp B) (c : Comp A) : Comp B :=
  λ σ, match c σ with
       | (Some a, σ') => k a σ'
       | (None, σ') => (None, σ')
       end.

#[global] Instance Comp_bind : MBind Comp := @bind.

(** [MODEL_PRICING[key]]: a reference, or [undefined]. *)
Definition readTable (key : string) : Comp (option loc) :=
  λ σ, (Some (getProperty (table σ) key), σ).

(** [pricing.field] in a product: throws when [pricing] is [undefined],
    and is [NaN] when the object is no pricing record. *)
Definition readField (field : ModelPricing num → num) (pricing : option loc)
    : Comp num :=
  λ σ, ((λ entry, match records σ !! entry with
                  | Some record => field record
                  | None => nan
                  end) <$> pricing, σ).

Definition getModelPricing (model : option string) : Comp (option loc) :=
  match model with
  | None => ret (Some DEFAULT_PRICING)
  | Some model =>
    if String.eqb model "" then ret (Some DEFAULT_PRICING)
    else
      direct ← readTable model;
      if bool_decide (is_Some direct) then readTable model
      else
        let modelLower := toLowerCase model in
        if includes modelLower "opus-4" || includes modelLower "opus-4.5" then
          readTable "claude-opus-4-5-20250514"
        else if includes modelLower "sonnet-4" then
          readTable "claude-sonnet-4-20250514"
        else if includes modelLower "3-5-sonnet" || includes modelLower "3.5-sonnet" then
          readTable "claude-3-5-sonnet-20241022"
        else if includes modelLower "3-5-haiku" || includes modelLower "3.5-haiku" then
          readTable "claude-3-5-haiku-20241022"
        else if includes modelLower "opus" then
          readTable "claude-3-opus-20240229"
        else if includes modelLower "haiku" then
          readTable "claude-3-haiku-20240307"
        else if includes modelLower "sonnet" then
          readTable "claude-3-5-sonnet-20241022"
        else ret (Some DEFAULT_PRICING)
  end.

Definition calculateCost (usage : UsageTokens num) (model : option string)
    : Comp (CostBreakdown num) :=
  pricing ← getModelPricing model;
  inputPer1M ← readField inputPer1M pricing;
  let inputCost := mul (div (input_tokens usage) (lit 1000000)) inputPer1M in
  outputPer1M ← readField outputPer1M pricing;
  let outputCost := mul (div (output_tokens usage) (lit 1000000)) outputPer1M in
  cacheWritePer1M ← readField cacheWritePer1M pricing;
  let cacheWriteCost :=
    mul (div (orZero (cache_creation_input_tokens usage)) (lit 1000000))
        cacheWritePer1M in
  cacheReadPer1M ← readField cacheReadPer1M pricing;
  let cacheReadCost :=
    mul (div (orZero (cache_read_input_tokens usage)) (lit 1000000))
        cacheReadPer1M in
  ret {| total := add (add (add inputCost outputCost) cacheWriteCost) cacheReadCost;
         input := inputCost;
         output := outputCost;
         cacheWrite := cacheWriteCost;
         cacheRead := cacheReadCost |}.



End Store.

End Effects.

(** ** Vocabulary of the further properties *)

(** The record a model identifier is priced with: the object behind the
    reference [getModelPricing] returns. *)
Definition pricingOf {num : Type} `{!JSNumber num} (model : option string)
    : option (ModelPricing num) :=
  getModelPricing model ≫= (objects !!.).

(** Orders on usages over the rationals, an absent cache field counting as
    zero. *)
Definition usage_nonneg (usage : UsageTokens Q) : Prop :=
  (0 <= input_tokens usage ∧ 0 <= output_tokens usage
   ∧ 0 <= default 0 (cache_creation_input_tokens usage)
   ∧ 0 <= default 0 (cache_read_input_tokens usage))%Q.

Definition usage_le (usage1 usage2 : UsageTokens Q) : Prop :=
  (input_tokens usage1 <= input_tokens usage2
   ∧ output_tokens usage1 <= output_tokens usage2
   ∧ default 0 (cache_creation_input_tokens usage1)
     <= default 0 (cache_creation_input_tokens usage2)
   ∧ default 0 (cache_read_input_tokens usage1)
     <= default 0 (cache_read_input_tokens usage2))%Q.

(** What the records of the store have in common: positive rates between
    those of 'claude-3-haiku-20240307' and those of the Opus entries, an
    output rate five times the input rate, and the cache rates at 1.25 and
    0.10 times the input rate. *)
Definition regular_rates (p : ModelPricing Q) : Prop :=
  (0.25 <= inputPer1M p <= 15 ∧ 1.25 <= outputPer1M p <= 75
   ∧ 0.3125 <= cacheWritePer1M p <= 18.75 ∧ 0.025 <= cacheReadPer1M p <= 1.5
   ∧ outputPer1M p == 5 * inputPer1M p
   ∧ cacheWritePer1M p == 1.25 * inputPer1M p
   ∧ cacheReadPer1M p == 0.10 * inputPer1M p)%Q.

(** A store in which the [return] statements of [getModelPricing] find
    what they read: every key a family rule resolves to is in the table,
    and every reference of the table, and the default one, has its record. *)
Definition targets_bound {num : Type} (σ : Effects.Store (num := num)) : Prop :=
  Forall (λ r, is_Some (Effects.table σ !! r.2)) family_rules
  ∧ (∀ key entry, Effects.table σ !! key = Some entry →
       is_Some (Effects.records σ !! entry))
  ∧ is_Some (Effects.records σ !! DEFAULT_PRICING).


(** * Properties *)

(** ** The table *)

Lemma MODEL_PRICING_keys_NoDup : NoDup MODEL_PRICING_literal.*1.
Proof. apply (bool_decide_unpack _). vm_compute. exact I. Qed.

Lemma MODEL_PRICING_lookup (key : string) (entry : loc) :
  MODEL_PRICING !! key = Some entry ↔
  MODEL_PRICING_literal.*1 !! entry = Some key.
Proof.
  unfold MODEL_PRICING.
  rewrite <- elem_of_list_to_map.
  - rewrite elem_of_lookup_zip_with. split.
    + intros (i & k & l & [= -> ->] & Hk & Hl).
      apply lookup_seq in Hl as [-> _]. exact Hk.
    + intros Hk. exists entry, key, entry. split; [done|]. split; [done|].
      apply lookup_seq. split; [done|].
      apply lookup_lt_Some in Hk. by rewrite length_fmap in Hk.
  - rewrite fst_zip; [apply MODEL_PRICING_keys_NoDup|].
    rewrite length_fmap, length_seq. done.
Qed.

(** Every reference held by the table is below the one of the default
    record: no key of the table is bound to the default record. *)
Lemma MODEL_PRICING_entry_lt (key : string) (entry : loc) :
  MODEL_PRICING !! key = Some entry → entry < DEFAULT_PRICING.
Proof.
  rewrite MODEL_PRICING_lookup. intros Hk.
  apply lookup_lt_Some in Hk. by rewrite length_fmap in Hk.
Qed.

Lemma MODEL_PRICING_no_empty_key : MODEL_PRICING !! "" = None.
Proof. vm_compute. reflexivity. Qed.

(** The keys of the table are written in lower case. *)
Lemma MODEL_PRICING_keys_lower :
  Forall (λ key, toLowerCase key = key) MODEL_PRICING_literal.*1.
Proof. repeat apply Forall_cons_2; [..|apply Forall_nil_2]; by vm_compute. Qed.

(** The lookup compares the string as it is given: a string that
    lower-casing changes is no key. *)
Lemma MODEL_PRICING_case_sensitive (model : string) :
  toLowerCase model ≠ model → MODEL_PRICING !! model = None.
Proof.
  intros Hcase. destruct (MODEL_PRICING !! model) as [entry|] eqn:Hlook; [|done].
  apply MODEL_PRICING_lookup, list_elem_of_lookup_2 in Hlook.
  pose proof MODEL_PRICING_keys_lower as Hlower. rewrite Forall_forall in Hlower.
  by apply Hlower in Hlook.
Qed.

(** The object behind the reference of a key is the record written for
    that key in the literal. *)
Lemma MODEL_PRICING_object {num : Type} `{!JSNumber num} (key : string) (entry : loc) :
  MODEL_PRICING !! key = Some entry →
  ∃ p, (key, p) ∈ MODEL_PRICING_literal ∧
       objects (num := num) !! entry = Some (evalLiteral p).
Proof.
  rewrite MODEL_PRICING_lookup. intros Hk.
  apply list_lookup_fmap_Some in Hk as ([k p] & -> & Hkp).
  exists p. split; [by eapply list_elem_of_lookup_2|].
  unfold objects. rewrite list_lookup_fmap, lookup_app_l.
  - by rewrite list_lookup_fmap, Hkp.
  - rewrite length_fmap. by eapply lookup_lt_Some.
Qed.

Lemma DEFAULT_PRICING_object {num : Type} `{!JSNumber num} :
  objects (num := num) !! DEFAULT_PRICING = Some (evalLiteral DEFAULT_PRICING_literal).
Proof. reflexivity. Qed.

(** ** The string operations on examples *)

Example toLowerCase_examples :
  toLowerCase "Claude-Opus-4-5-Preview" = "claude-opus-4-5-preview"
  ∧ toLowerCase "CLAUDE_3.5@[`{~" = "claude_3.5@[`{~"
  ∧ toLowerCase (String "226" (String "132" (String "170" ""))) = "k".
Proof. by vm_compute. Qed.

Example includes_examples :
  includes "claude-opus-4-5-preview" "opus-4" = true
  ∧ includes "claude-opus-4-5-preview" "opus-4.5" = false
  ∧ includes "claude-3-sonnet" "sonnet-4" = false
  ∧ includes "sonnet" "" = true
  ∧ includes "" "sonnet" = false.
Proof. by vm_compute. Qed.

(** ** The inherited properties *)

Lemma Object_prototype_names_NoDup : NoDup Object_prototype_names.
Proof. apply (bool_decide_unpack _). vm_compute. exact I. Qed.

(** An inherited property reads as an object allocated after the records. *)
Lemma Object_prototype_value (key : string) (value : loc) :
  Object_prototype !! key = Some value →
  key ∈ Object_prototype_names ∧ DEFAULT_PRICING < value.
Proof.
  unfold Object_prototype. intros Hkey. apply elem_of_list_to_map_2 in Hkey.
  split; [by eapply elem_of_zip_l|].
  apply elem_of_zip_r, elem_of_seq in Hkey. lia.
Qed.

Lemma Object_prototype_None (key : string) :
  Object_prototype !! key = None ↔ key ∉ Object_prototype_names.
Proof.
  unfold Object_prototype. rewrite <- not_elem_of_list_to_map, fst_zip; [done|].
  by rewrite length_seq.
Qed.

Lemma inherited_false (model : string) :
  inherited (Some model) = false ↔ Object_prototype !! model = None.
Proof.
  unfold inherited. rewrite bool_decide_eq_false. symmetry.
  apply Object_prototype_None.
Qed.

Lemma inherited_true (model : string) :
  inherited (Some model) = true ↔ is_Some (Object_prototype !! model).
Proof.
  unfold inherited. rewrite bool_decide_eq_true, <- not_eq_None_Some.
  rewrite Object_prototype_None. split; [tauto|]. apply dec_stable.
Qed.

(** No inherited name is a key of the table, is empty, or carries a
    pattern of a family rule. *)
Lemma Object_prototype_names_apart :
  Forall (λ name, MODEL_PRICING !! name = None ∧ name ≠ ""
                  ∧ find (rule_matches (toLowerCase name)) family_rules = None)
         Object_prototype_names.
Proof. repeat apply Forall_cons_2; [..|apply Forall_nil_2]; by vm_compute. Qed.

Lemma inherited_apart (name : string) (value : loc) :
  Object_prototype !! name = Some value →
  MODEL_PRICING !! name = None ∧ name ≠ ""
  ∧ find (rule_matches (toLowerCase name)) family_rules = None.
Proof.
  intros [Hin _]%Object_prototype_value.
  pose proof Object_prototype_names_apart as Hall.
  rewrite Forall_forall in Hall. by apply Hall.
Qed.

(** No key of the table is an inherited name: the table's own property
    is the one a read finds. *)
Lemma MODEL_PRICING_own (key : string) (entry : loc) :
  MODEL_PRICING !! key = Some entry → getProperty MODEL_PRICING key = Some entry.
Proof. intros Hkey. unfold getProperty. by rewrite Hkey. Qed.

(** A reference beyond the default record has no pricing record. *)
Lemma objects_beyond {num : Type} `{!JSNumber num} (value : loc) :
  DEFAULT_PRICING < value → objects (num := num) !! value = None.
Proof.
  intros Hlt. apply lookup_ge_None. unfold objects.
  rewrite length_fmap, length_app, length_fmap. simpl.
  unfold DEFAULT_PRICING in Hlt. simpl in Hlt. lia.
Qed.

(** ** The cascade of [getModelPricing] is the ordered rule list *)


(** The keys the [return] statements of the cascade read are the table's
    own. *)
Lemma family_rules_own :
  Forall (λ r, getProperty MODEL_PRICING r.2 = MODEL_PRICING !! r.2) family_rules.
Proof. repeat apply Forall_cons_2; [..|apply Forall_nil_2]; by vm_compute. Qed.

Lemma getModelPricing_cascade (model : string) :
  MODEL_PRICING !! model = None → Object_prototype !! model = None →
  getModelPricing (Some model) = resolve_family family_rules (toLowerCase model).
Proof.
  intros Hnone Hproto. unfold getModelPricing.
  destruct (String.eqb_spec model "") as [->|_]; [reflexivity|].
  unfold getProperty at 1. rewrite Hnone, Hproto.
  unfold resolve_family, family_rules, rule_matches.
  cbn [find existsb fst snd].
  generalize (toLowerCase model). intros modelLower.
  destruct (includes modelLower "opus-4"), (includes modelLower "opus-4.5");
    try (by vm_compute).
  destruct (includes modelLower "sonnet-4"); [by vm_compute|].
  destruct (includes modelLower "3-5-sonnet"), (includes modelLower "3.5-sonnet");
    try (by vm_compute).
  destruct (includes modelLower "3-5-haiku"), (includes modelLower "3.5-haiku");
    try (by vm_compute).
  destruct (includes modelLower "opus"); [by vm_compute|].
  destruct (includes modelLower "haiku"); [by vm_compute|].
  destruct (includes modelLower "sonnet"); by vm_compute.
Qed.

(** A name inherited from [Object.prototype] is a direct match: the
    function returns the inherited object. *)
Lemma getModelPricing_inherited (name : string) (value : loc) :
  Object_prototype !! name = Some value →
  getModelPricing (Some name) = Some value.
Proof.
  intros Hname. destruct (inherited_apart _ _ Hname) as (Hown & Hne & _).
  unfold getModelPricing. destruct (String.eqb_spec name ""); [done|].
  unfold getProperty. by rewrite Hown, Hname.
Qed.

(** A key of the table resolves to its own entry. *)
Lemma getModelPricing_key (key : string) (entry : loc) :
  MODEL_PRICING !! key = Some entry → getModelPricing (Some key) = Some entry.
Proof.
  intros Hlook. unfold getModelPricing.
  destruct (String.eqb_spec key "") as [->|_].
  - by rewrite MODEL_PRICING_no_empty_key in Hlook.
  - by rewrite (MODEL_PRICING_own _ _ Hlook).
Qed.

(** ** [includes] is the substring test *)

Lemma append_nil (s : string) : "" ++ s = s.
Proof. reflexivity. Qed.

Lemma append_cons (c : ascii) (s t : string) :
  String c s ++ t = String c (s ++ t).
Proof. reflexivity. Qed.

Lemma prefix_app (pat s : string) :
  String.prefix pat s = true ↔ ∃ rest, s = pat ++ rest.
Proof.
  revert pat. induction s as [|d s IH]; intros [|c pat]; simpl.
  - split; [intros _; by exists "" | done].
  - split; [done | intros [rest [=]]].
  - split; [intros _; by exists (String d s) | done].
  - destruct (Ascii.ascii_dec c d) as [->|Hne].
    + rewrite IH. setoid_rewrite append_cons.
      split; intros [rest Hs]; exists rest; congruence.
    + setoid_rewrite append_cons. split; [done | intros [rest [=]]; congruence].
Qed.

Lemma includes_app (s pat : string) :
  includes s pat = true ↔ ∃ before after, s = before ++ pat ++ after.
Proof.
  induction s as [|c s IH]; cbn [includes]; rewrite orb_true_iff, prefix_app.
  - split.
    + intros [[rest Hs]|[=]]. by exists "", rest.
    + intros ([|? before] & after & Hs); [left; by exists after|discriminate].
  - rewrite IH. split.
    + intros [[rest Hs]|(before & after & ->)].
      * by exists "", rest.
      * by exists (String c before), after.
    + intros ([|d before] & after & Hs).
      * left. by exists after.
      * right. rewrite append_cons in Hs. injection Hs as -> ->.
        by exists before, after.
Qed.

(** A longer pattern is found only where its prefix is found: the second
    pattern of the first rule never decides alone. *)
Lemma includes_opus_4_5 (s : string) :
  includes s "opus-4.5" = true → includes s "opus-4" = true.
Proof.
  rewrite !includes_app. intros (before & after & ->).
  by exists before, (".5" ++ after).
Qed.


(** ** Lower-casing *)

Lemma lower_ascii_idem (c : ascii) : lower_ascii (lower_ascii c) = lower_ascii c.
Proof. destruct c as [[] [] [] [] [] [] [] []]; reflexivity. Qed.

(** A byte outside ASCII is the lower-case form of itself only. *)
Lemma lower_ascii_high (c c' : ascii) :
  (128 ≤ N_of_ascii c')%N → lower_ascii c = c' → c = c'.
Proof.
  unfold lower_ascii. intros Hhigh.
  destruct ((65 <=? N_of_ascii c)%N && (N_of_ascii c <=? 90)%N) eqn:Hup; [|done].
  apply andb_true_iff in Hup as [H1%N.leb_le H2%N.leb_le].
  intros <-. rewrite N_ascii_embedding in Hhigh; lia.
Qed.

(** Away from the two code points treated apart, [toLowerCase] goes byte
    by byte. *)
Lemma toLowerCase_plain (c : ascii) (s : string) :
  (c ≠ "226"%char ∨ ∀ s', s ≠ String "132" (String "170" s')) →
  (c ≠ "196"%char ∨ ∀ s', s ≠ String "176" s') →
  toLowerCase (String c s) = String (lower_ascii c) (toLowerCase s).
Proof.
  intros Hkelvin Hdot.
  destruct c as [[] [] [] [] [] [] [] []]; try reflexivity.
  - destruct Hkelvin as [Hc|Hs]; [done|].
    destruct s as [|d s]; [reflexivity|].
    destruct d as [[] [] [] [] [] [] [] []]; try reflexivity.
    destruct s as [|e s]; [reflexivity|].
    destruct e as [[] [] [] [] [] [] [] []]; try reflexivity.
    by destruct (Hs s).
  - destruct Hdot as [Hc|Hs]; [done|].
    destruct s as [|d s]; [reflexivity|].
    destruct d as [[] [] [] [] [] [] [] []]; try reflexivity.
    by destruct (Hs s).
Qed.

Lemma starts_with_dec (prefix s : string) :
  (∃ s', s = prefix ++ s') ∨ (∀ s', s ≠ prefix ++ s').
Proof.
  destruct (String.prefix prefix s) eqn:Hp.
  - left. by apply prefix_app.
  - right. intros s' Hs. assert (String.prefix prefix s = true); [|congruence].
    apply prefix_app. by exists s'.
Qed.

(** Lower-casing the letters A-Z neither makes nor breaks a sequence of
    bytes outside ASCII at the head of a string. *)
Lemma lowerASCII_head (d : ascii) (s s' : string) :
  (128 ≤ N_of_ascii d)%N → lowerASCII s = String d s' →
  ∃ s'', s = String d s'' ∧ lowerASCII s'' = s'.
Proof.
  intros Hd Hs. destruct s as [|c s]; [discriminate|].
  cbn [lowerASCII] in Hs. injection Hs as Hc Hs.
  apply (lower_ascii_high _ _ Hd) in Hc as ->. by exists s.
Qed.

Lemma toLowerCase_lowerASCII_length (n : nat) (s : string) :
  (String.length s ≤ n)%nat → toLowerCase (lowerASCII s) = toLowerCase s.
Proof.
  revert s. induction n as [|n IH]; intros s Hlen.
  { destruct s; [reflexivity | simpl in Hlen; lia]. }
  destruct s as [|c s]; [reflexivity|]. simpl in Hlen.
  destruct (decide (c = "226"%char)) as [->|Hc1].
  - destruct (starts_with_dec (String "132" (String "170" "")) s) as [[s' ->]|Hs].
    + change (String "k" (toLowerCase (lowerASCII s')) = String "k" (toLowerCase s')).
      f_equal. apply IH.
      change (S (S (S (String.length s'))) ≤ S n)%nat in Hlen. lia.
    + rewrite (toLowerCase_plain "226" s); [|by right|by left].
      cbn [lowerASCII]. rewrite toLowerCase_plain; [|right|by left].
      * f_equal. apply IH. lia.
      * intros s' Hs'.
        apply lowerASCII_head in Hs' as (s1 & -> & Hs1); [|by vm_compute].
        apply lowerASCII_head in Hs1 as (s2 & -> & _); [|by vm_compute].
        by apply (Hs s2).
  - destruct (decide (c = "196"%char)) as [->|Hc2].
    + destruct (starts_with_dec (String "176" "") s) as [[s' ->]|Hs].
      * change (String "i" (String "204" (String "135" (toLowerCase (lowerASCII s'))))
                = String "i" (String "204" (String "135" (toLowerCase s')))).
        do 3 f_equal. apply IH.
        change (S (S (String.length s')) ≤ S n)%nat in Hlen. lia.
      * rewrite (toLowerCase_plain "196" s); [|by left|by right].
        cbn [lowerASCII]. rewrite toLowerCase_plain; [|by left|right].
        -- f_equal. apply IH. lia.
        -- intros s' Hs'.
           apply lowerASCII_head in Hs' as (s1 & -> & _); [|by vm_compute].
           by apply (Hs s1).
    + rewrite (toLowerCase_plain c s); [|by left|by left].
      cbn [lowerASCII]. rewrite toLowerCase_plain.
      * rewrite lower_ascii_idem. f_equal. apply IH. lia.
      * left. intros Hc. apply lower_ascii_high in Hc; [done|by vm_compute].
      * left. intros Hc. apply lower_ascii_high in Hc; [done|by vm_compute].
Qed.

(** [toLowerCase] does not see the case of the letters A-Z. *)
Lemma toLowerCase_lowerASCII (s : string) :
  toLowerCase (lowerASCII s) = toLowerCase s.
Proof. by apply (toLowerCase_lowerASCII_length (String.length s)). Qed.

(** ** Resolution of a model identifier *)

Lemma find_None_Forall {A} (f : A → bool) (l : list A) :
  find f l = None ↔ Forall (λ x, f x = false) l.
Proof.
  induction l as [|x l IH]; simpl.
  - split; [constructor | done].
  - destruct (f x) eqn:Hx.
    + split; [done | intros Hl; inversion Hl; congruence].
    + rewrite IH. split; [by constructor | by inversion 1].
Qed.

Lemma find_agree {A} (f g : A → bool) (l : list A) :
  Forall (λ x, f x = g x) l → find f l = find g l.
Proof.
  induction 1 as [|x l Hx _ IH]; [done|]. simpl. by rewrite Hx, IH.
Qed.

(** Every target key of a rule is a key of the table, so a rule that
    matches never yields [undefined], nor the default record. *)
Lemma family_rules_targets :
  Forall (λ r, ∃ entry, MODEL_PRICING !! r.2 = Some entry ∧ entry < DEFAULT_PRICING)
         family_rules.
Proof.
  repeat apply Forall_cons_2; [..|apply Forall_nil_2];
    (eexists; split; [vm_compute; reflexivity | vm_compute; lia]).
Qed.

Lemma resolve_family_matched (modelLower : string) (r : list string * string) :
  find (rule_matches modelLower) family_rules = Some r →
  ∃ entry, resolve_family family_rules modelLower = Some entry ∧
           MODEL_PRICING !! r.2 = Some entry ∧ entry < DEFAULT_PRICING.
Proof.
  intros Hr. unfold resolve_family. rewrite Hr.
  apply find_some in Hr as [Hin _]. apply list_elem_of_In in Hin.
  pose proof family_rules_targets as Ht. rewrite Forall_forall in Ht.
  destruct (Ht r Hin) as (entry & He & Hlt). eauto.
Qed.

(** [getModelPricing] never returns [undefined]: its result is the
    reference of a record, or for an inherited name that of an object which
    is no record. *)
Lemma getModelPricing_defined (model : option string) :
  ∃ entry, getModelPricing model = Some entry
           ∧ (inherited model = false → (entry ≤ DEFAULT_PRICING)%nat)
           ∧ (inherited model = true → DEFAULT_PRICING < entry).
Proof.
  destruct model as [model|]; [|exists DEFAULT_PRICING; by split].
  destruct (Object_prototype !! model) as [value|] eqn:Hproto.
  - exists value. split; [by apply getModelPricing_inherited|].
    apply Object_prototype_value in Hproto as [Hin Hlt]. split; [|done].
    unfold inherited. rewrite bool_decide_eq_false. done.
  - assert (Hinh : inherited (Some model) = false) by by apply inherited_false.
    rewrite Hinh.
    destruct (MODEL_PRICING !! model) as [entry|] eqn:Hlook.
    + exists entry. split; [by apply getModelPricing_key|]. split; [|done].
      intros _. apply MODEL_PRICING_entry_lt in Hlook. lia.
    + rewrite (getModelPricing_cascade _ Hlook Hproto).
      destruct (find (rule_matches (toLowerCase model)) family_rules) as [r|] eqn:Hr.
      * apply resolve_family_matched in Hr as (entry & -> & _ & Hlt).
        exists entry. split; [done|]. split; [lia|done].
      * unfold resolve_family. rewrite Hr. by exists DEFAULT_PRICING.
Qed.

(** What the direct match does with a name inherited from
    [Object.prototype]: the name is no key of the table and no family rule
    matches it, yet the result is the inherited object, which is neither
    the default record nor any pricing record. *)
Lemma getModelPricing_inherited_object (name : string) (value : loc) :
  Object_prototype !! name = Some value →
  MODEL_PRICING !! name = None
  ∧ Forall (λ r, rule_matches (toLowerCase name) r = false) family_rules
  ∧ resolve_family family_rules (toLowerCase name) = Some DEFAULT_PRICING
  ∧ getModelPricing (Some name) = Some value
  ∧ value ≠ DEFAULT_PRICING
  ∧ ∀ (num : Type) (N : JSNumber num), objects (num := num) !! value = None.
Proof.
  intros Hname. destruct (inherited_apart _ _ Hname) as (Hown & _ & Hrules).
  pose proof (Object_prototype_value _ _ Hname) as [_ Hlt].
  split; [done|]. split; [by apply find_None_Forall|].
  split; [unfold resolve_family; by rewrite Hrules|].
  split; [by apply getModelPricing_inherited|]. split; [lia|].
  intros num N. by apply objects_beyond.
Qed.


(** C4. [getModelPricing] returns the default record exactly when the model
    argument is absent, or is a string that is no key of the table, is
    matched by no family rule and is no name inherited from
    [Object.prototype]; the default record holds the rates 3, 15, 3.75 and
    0.30. An absent argument and "totally-unknown-model-xyz" are two such
    inputs. An inherited name such as "constructor" is neither a key nor
    matched by a rule, and still does not get the default record: the
    direct match returns the inherited object, which has no rates. *)
Theorem getModelPricing_default_iff :
  (∀ model : option string,
     getModelPricing model = Some DEFAULT_PRICING ↔
     model = None ∨
     ∃ s, model = Some s ∧ MODEL_PRICING !! s = None ∧
          Forall (λ r, rule_matches (toLowerCase s) r = false) family_rules ∧
          inherited (Some s) = false)
  ∧ (∀ (num : Type) (N : JSNumber num),
       objects (num := num) !! DEFAULT_PRICING =
       Some (evalLiteral {| inputPer1M := 3; outputPer1M := 15;
                            cacheWritePer1M := 3.75; cacheReadPer1M := 0.30 |}%Q))
  ∧ getModelPricing None = Some DEFAULT_PRICING
  ∧ getModelPricing (Some "totally-unknown-model-xyz") = Some DEFAULT_PRICING
  ∧ (MODEL_PRICING !! "constructor" = None
     ∧ Forall (λ r, rule_matches (toLowerCase "constructor") r = false) family_rules
     ∧ getModelPricing (Some "constructor") = Object_prototype !! "constructor"
     ∧ getModelPricing (Some "constructor") ≠ Some DEFAULT_PRICING
     ∧ ∀ (num : Type) (N : JSNumber num),
         getModelPricing (Some "constructor") ≫= (objects (num := num) !!.) = None).
Proof.
  split; [|split; [reflexivity | split; [reflexivity | split; [by vm_compute|]]]].
  - intros [model|]; [|split; [by left | done]].
    split.
    + intros Hdef. right. exists model. split; [done|].
      destruct (Object_prototype !! model) as [value|] eqn:Hproto.
      { exfalso. rewrite (getModelPricing_inherited _ _ Hproto) in Hdef.
        apply Object_prototype_value in Hproto as [_ Hlt].
        injection Hdef as ->. lia. }
      destruct (MODEL_PRICING !! model) as [entry|] eqn:Hlook.
      * exfalso. rewrite (getModelPricing_key _ _ Hlook) in Hdef.
        apply MODEL_PRICING_entry_lt in Hlook. injection Hdef as ->. lia.
      * split; [done|]. split; [|by apply inherited_false].
        apply find_None_Forall.
        rewrite (getModelPricing_cascade _ Hlook Hproto) in Hdef.
        destruct (find (rule_matches (toLowerCase model)) family_rules) as [r|] eqn:Hr;
          [|done].
        apply resolve_family_matched in Hr as (entry & Hres & _ & Hlt).
        rewrite Hres in Hdef. injection Hdef as ->. lia.
    + intros [[=]|(s & [= <-] & Hlook & Hr & Hinh)].
      apply find_None_Forall in Hr. apply inherited_false in Hinh.
      rewrite (getModelPricing_cascade _ Hlook Hinh). unfold resolve_family.
      by rewrite Hr.
  - destruct (getModelPricing_inherited_object "constructor" 12)
      as (Hown & Hrules & _ & Hres & Hne & Hobj); [by vm_compute|].
    split; [done|]. split; [done|]. split; [by vm_compute|].
    split; [rewrite Hres; intros [= ?]; done|].
    intros num N. rewrite Hres. cbn [mbind option_bind]. apply Hobj.
Qed.

(** The Sonnet-class entries hold the same four rates as the default
    record: the records differ as objects, not in their fields. *)
Lemma DEFAULT_PRICING_rates_shared {num : Type} `{!JSNumber num} :
  Forall (λ key, ∃ entry, MODEL_PRICING !! key = Some entry ∧
                          entry ≠ DEFAULT_PRICING ∧
                          objects (num := num) !! entry =
                          objects (num := num) !! DEFAULT_PRICING)
    ["claude-sonnet-4-20250514"; "claude-3-5-sonnet-20241022";
     "claude-3-5-sonnet-latest"; "claude-3-5-sonnet-20240620";
     "claude-3-sonnet-20240229"].
Proof.
  repeat apply Forall_cons_2; [..|apply Forall_nil_2];
    (eexists; split; [vm_compute; reflexivity | split; [vm_compute; lia | reflexivity]]).
Qed.

(** C5. A string that is a key of the table resolves to the entry of that
    key, whose object is the record written for the key, even where a
    family rule would pick another entry. The exact lookup compares the
    string as given: a string that lower-casing changes is never a key and,
    unless it is a name inherited from [Object.prototype], goes to the
    family rules; "Claude-3-Opus-Latest" is no key although its lower-cased
    form is one, and it resolves by family to another entry than that key.
    The family rules see the lower-cased string only, and of it only which
    rules match: two strings that are neither keys nor inherited names and
    whose lower-cased forms are matched by the same rules resolve alike, as
    do two strings with the same lower-cased form and two strings that
    differ only in the case of the letters A-Z. *)
Theorem getModelPricing_exact_match :
  (∀ key entry, MODEL_PRICING !! key = Some entry →
     getModelPricing (Some key) = Some entry)
  ∧ (∀ key p, (key, p) ∈ MODEL_PRICING_literal →
       ∃ entry, getModelPricing (Some key) = Some entry
                ∧ MODEL_PRICING !! key = Some entry
                ∧ ∀ (num : Type) (N : JSNumber num),
                    objects (num := num) !! entry = Some (evalLiteral p))
  ∧ (getModelPricing (Some "claude-3-5-sonnet-20241022")
       = MODEL_PRICING !! "claude-3-5-sonnet-20241022"
     ∧ is_Some (MODEL_PRICING !! "claude-3-5-sonnet-20241022"))
  ∧ (getModelPricing (Some "claude-3-sonnet-20240229")
       = MODEL_PRICING !! "claude-3-sonnet-20240229"
     ∧ resolve_family family_rules (toLowerCase "claude-3-sonnet-20240229")
       = MODEL_PRICING !! "claude-3-5-sonnet-20241022"
     ∧ MODEL_PRICING !! "claude-3-sonnet-20240229"
       ≠ MODEL_PRICING !! "claude-3-5-sonnet-20241022")
  ∧ (MODEL_PRICING !! "Claude-3-Opus-Latest" = None
     ∧ toLowerCase "Claude-3-Opus-Latest" = "claude-3-opus-latest"
     ∧ getModelPricing (Some "Claude-3-Opus-Latest")
       = MODEL_PRICING !! "claude-3-opus-20240229"
     ∧ getModelPricing (Some "Claude-3-Opus-Latest")
       ≠ getModelPricing (Some "claude-3-opus-latest"))
  ∧ (∀ model, toLowerCase model ≠ model →
       MODEL_PRICING !! model = None
       ∧ (inherited (Some model) = false →
          getModelPricing (Some model)
          = resolve_family family_rules (toLowerCase model)))
  ∧ (∀ m1 m2, MODEL_PRICING !! m1 = None → MODEL_PRICING !! m2 = None →
       inherited (Some m1) = false → inherited (Some m2) = false →
       Forall (λ r, rule_matches (toLowerCase m1) r = rule_matches (toLowerCase m2) r)
              family_rules
       ∨ toLowerCase m1 = toLowerCase m2 ∨ lowerASCII m1 = lowerASCII m2 →
       getModelPricing (Some m1) = getModelPricing (Some m2)).
Proof.
  split; [exact getModelPricing_key|]. split; [|split; [|split; [|split; [|split]]]].
  - intros key p Hin. apply list_elem_of_lookup in Hin as [entry Hentry].
    assert (Hlook : MODEL_PRICING !! key = Some entry).
    { apply MODEL_PRICING_lookup. by rewrite list_lookup_fmap, Hentry. }
    exists entry. split; [by apply getModelPricing_key|]. split; [done|].
    intros num N. destruct (MODEL_PRICING_object (num := num) _ _ Hlook)
      as (p' & Hin' & Hobj).
    rewrite Hobj. do 2 f_equal.
    apply list_elem_of_lookup in Hin' as [entry' Hentry'].
    assert (entry' = entry) as ->; [|congruence].
    eapply NoDup_lookup; [apply MODEL_PRICING_keys_NoDup|..].
    + by rewrite list_lookup_fmap, Hentry'.
    + by rewrite list_lookup_fmap, Hentry.
  - vm_compute. split; [reflexivity | by eexists].
  - vm_compute. repeat split; discriminate.
  - vm_compute. repeat split; discriminate.
  - intros model Hcase. pose proof (MODEL_PRICING_case_sensitive _ Hcase) as Hnone.
    split; [exact Hnone|]. intros Hinh%inherited_false.
    by apply getModelPricing_cascade.
  - intros m1 m2 H1 H2 Hi1%inherited_false Hi2%inherited_false Hlower.
    rewrite (getModelPricing_cascade _ H1 Hi1), (getModelPricing_cascade _ H2 Hi2).
    destruct Hlower as [Hrules|[Hlower|Hlower]].
    + unfold resolve_family. by rewrite (find_agree _ _ _ Hrules).
    + by rewrite Hlower.
    + by rewrite <- (toLowerCase_lowerASCII m1), Hlower, toLowerCase_lowerASCII.
Qed.

(** C6. "Claude-Opus-4-5-Preview" is no key of the table; lower-cased it
    contains "opus-4" and resolves to the entry of
    'claude-opus-4-5-20250514', with rates 15, 75, 18.75 and 1.5. *)
Theorem getModelPricing_mixed_case_opus :
  MODEL_PRICING !! "Claude-Opus-4-5-Preview" = None
  ∧ includes (toLowerCase "Claude-Opus-4-5-Preview") "opus-4" = true
  ∧ getModelPricing (Some "Claude-Opus-4-5-Preview")
    = MODEL_PRICING !! "claude-opus-4-5-20250514"
  ∧ ∃ entry, getModelPricing (Some "Claude-Opus-4-5-Preview") = Some entry
      ∧ ∀ (num : Type) (N : JSNumber num),
          objects (num := num) !! entry =
          Some (evalLiteral {| inputPer1M := 15; outputPer1M := 75;
                               cacheWritePer1M := 18.75; cacheReadPer1M := 1.5 |}%Q).
Proof.
  split; [by vm_compute|]. split; [by vm_compute|]. split; [by vm_compute|].
  exists 0. split; [by vm_compute | reflexivity].
Qed.

(** ** Numbers *)

(** The decimal literals of the module denote, through [lit], the binary64
    values the literals of the same spelling have. *)
#[warnings="-inexact-float"]
Lemma float_literals :
  lit 3 = 3%float ∧ lit 15 = 15%float ∧ lit 75 = 75%float ∧ lit 4 = 4%float ∧
  lit 18.75 = 18.75%float ∧ lit 1.5 = 1.5%float ∧ lit 3.75 = 3.75%float ∧
  lit 0.30 = 0.30%float ∧ lit 0.80 = 0.80%float ∧ lit 1.00 = 1.00%float ∧
  lit 0.08 = 0.08%float ∧ lit 0.25 = 0.25%float ∧ lit 1.25 = 1.25%float ∧
  lit 0.3125 = 0.3125%float ∧ lit 0.025 = 0.025%float ∧
  lit 1000000 = 1000000%float ∧ lit 0 = 0%float.
Proof. vm_compute. repeat split. Qed.




(** Over the rationals [x || 0] is [x], read as zero when absent. *)
Lemma orZero_Q (x : option Q) : orZero x == default 0%Q x.
Proof.
  destruct x as [q|]; [|reflexivity].
  unfold orZero. cbn [truthy lit Q_number default].
  destruct (Qeq_bool q 0) eqn:Hq; [|reflexivity].
  apply Qeq_bool_eq in Hq. symmetry. exact Hq.
Qed.

(** ** The cost calculator *)

Section CostProperties.

Context {num : Type} `{!JSNumber num}.

Lemma orZero_absent : orZero (num := num) None = lit 0.
Proof. reflexivity. Qed.



Lemma rate_record (field : ModelPricing num → num) (entry : loc)
    (pricing : ModelPricing num) :
  objects !! entry = Some pricing → rate field entry = field pricing.
Proof. intros Hp. unfold rate. by rewrite Hp. Qed.

Lemma rate_beyond (field : ModelPricing num → num) (entry : loc) :
  DEFAULT_PRICING < entry → rate field entry = nan.
Proof. intros Hlt. unfold rate. by rewrite objects_beyond. Qed.

(** The function returns, for every usage and model, the breakdown written
    in its [return], with the rates read through the reference
    [getModelPricing] gave. *)
Lemma calculateCost_rates (usage : UsageTokens num) (model : option string) :
  ∃ entry,
    getModelPricing model = Some entry
    ∧ (inherited model = false → (entry ≤ DEFAULT_PRICING)%nat)
    ∧ (inherited model = true → DEFAULT_PRICING < entry)
    ∧ calculateCost usage model =
      Some {| total :=
                add (add (add (component_cost (input_tokens usage)
                                              (rate inputPer1M entry))
                              (component_cost (output_tokens usage)
                                              (rate outputPer1M entry)))
                         (component_cost (orZero (cache_creation_input_tokens usage))
                                         (rate cacheWritePer1M entry)))
                    (component_cost (orZero (cache_read_input_tokens usage))
                                    (rate cacheReadPer1M entry));
              input := component_cost (input_tokens usage) (rate inputPer1M entry);
              output := component_cost (output_tokens usage) (rate outputPer1M entry);
              cacheWrite := component_cost (orZero (cache_creation_input_tokens usage))
                                           (rate cacheWritePer1M entry);
              cacheRead := component_cost (orZero (cache_read_input_tokens usage))
                                          (rate cacheReadPer1M entry) |}.
Proof.
  destruct (getModelPricing_defined model) as (entry & Hentry & Hrec & Hinh).
  exists entry. split; [done|]. split; [done|]. split; [done|].
  unfold calculateCost. rewrite Hentry. reflexivity.
Qed.

(** For a model that is no inherited name the rates are those of a record
    of the store. *)
Lemma calculateCost_unfold (usage : UsageTokens num) (model : option string) :
  inherited model = false →
  ∃ entry pricing,
    getModelPricing model = Some entry ∧ objects !! entry = Some pricing ∧
    calculateCost usage model =
    Some {| total :=
              add (add (add (component_cost (input_tokens usage) (inputPer1M pricing))
                            (component_cost (output_tokens usage) (outputPer1M pricing)))
                       (component_cost (orZero (cache_creation_input_tokens usage))
                                       (cacheWritePer1M pricing)))
                  (component_cost (orZero (cache_read_input_tokens usage))
                                  (cacheReadPer1M pricing));
            input := component_cost (input_tokens usage) (inputPer1M pricing);
            output := component_cost (output_tokens usage) (outputPer1M pricing);
            cacheWrite := component_cost (orZero (cache_creation_input_tokens usage))
                                         (cacheWritePer1M pricing);
            cacheRead := component_cost (orZero (cache_read_input_tokens usage))
                                        (cacheReadPer1M pricing) |}.
Proof.
  intros Hinh.
  destruct (calculateCost_rates usage model) as (entry & Hentry & Hle & _ & Hc).
  specialize (Hle Hinh).
  destruct (lookup_lt_is_Some_2 (objects (num := num)) entry) as [pricing Hp].
  { unfold objects. rewrite length_fmap, length_app, length_fmap. simpl.
    unfold DEFAULT_PRICING in Hle. simpl in Hle. lia. }
  exists entry, pricing. split; [done|]. split; [done|].
  by rewrite Hc, !(rate_record _ _ _ Hp).
Qed.

(** For an inherited name every rate is [NaN]. *)
Lemma calculateCost_inherited (usage : UsageTokens num) (model : option string) :
  inherited model = true →
  calculateCost usage model =
  Some {| total :=
            add (add (add (component_cost (input_tokens usage) nan)
                          (component_cost (output_tokens usage) nan))
                     (component_cost (orZero (cache_creation_input_tokens usage)) nan))
                (component_cost (orZero (cache_read_input_tokens usage)) nan);
          input := component_cost (input_tokens usage) nan;
          output := component_cost (output_tokens usage) nan;
          cacheWrite := component_cost (orZero (cache_creation_input_tokens usage)) nan;
          cacheRead := component_cost (orZero (cache_read_input_tokens usage)) nan |}.
Proof.
  intros Hinh.
  destruct (calculateCost_rates usage model) as (entry & _ & _ & Hlt & Hc).
  specialize (Hlt Hinh). by rewrite Hc, !(rate_beyond _ _ Hlt).
Qed.

End CostProperties.


(** Case analysis on the record a reference of the store points to. *)
Ltac each_record Hp entry :=
  repeat (destruct entry as [|entry];
          [injection Hp as <-; vm_compute; try reflexivity|]);
  try discriminate Hp.

(** C3. For every usage and model, in whatever arithmetic the numbers
    have, the [total] of the breakdown is the sum of its four components,
    added from left to right as the source writes it. In binary64 an
    all-zero usage costs 0 in every field for every model that is no name
    inherited from [Object.prototype], and so it does over the rationals.
    For an inherited name such as "toString" the all-zero usage costs [NaN]
    in every field, the total included, which the comparison of binary64
    finds equal neither to 0 nor to the sum of the components. *)
Theorem calculateCost_total_is_sum :
  (∀ (num : Type) (N : JSNumber num) (usage : UsageTokens num) (model : option string),
     ∃ cost, calculateCost usage model = Some cost ∧
       total cost =
       add (add (add (input cost) (output cost)) (cacheWrite cost)) (cacheRead cost))
  ∧ (∀ (model : option string) (cc cr : option float),
       inherited model = false →
       orZero cc = 0%float → orZero cr = 0%float →
       calculateCost {| input_tokens := 0%float; output_tokens := 0%float;
                        cache_creation_input_tokens := cc;
                        cache_read_input_tokens := cr |} model
       = Some {| total := 0%float; input := 0%float; output := 0%float;
                 cacheWrite := 0%float; cacheRead := 0%float |})
  ∧ calculateCost {| input_tokens := 0%float; output_tokens := 0%float;
                     cache_creation_input_tokens := None;
                     cache_read_input_tokens := Some 0%float |} None
    = Some {| total := 0%float; input := 0%float; output := 0%float;
              cacheWrite := 0%float; cacheRead := 0%float |}
  ∧ (∀ (model : option string) (cc cr : option Q),
       inherited model = false →
       orZero cc == 0 → orZero cr == 0 →
       ∃ cost,
         calculateCost {| input_tokens := 0%Q; output_tokens := 0%Q;
                          cache_creation_input_tokens := cc;
                          cache_read_input_tokens := cr |} model = Some cost
         ∧ total cost == 0 ∧ input cost == 0 ∧ output cost == 0
         ∧ cacheWrite cost == 0 ∧ cacheRead cost == 0)
  ∧ (calculateCost {| input_tokens := 0%float; output_tokens := 0%float;
                      cache_creation_input_tokens := None;
                      cache_read_input_tokens := None |} (Some "toString")
     = Some {| total := PrimFloat.nan; input := PrimFloat.nan;
               output := PrimFloat.nan; cacheWrite := PrimFloat.nan;
               cacheRead := PrimFloat.nan |}
     ∧ PrimFloat.eqb PrimFloat.nan 0%float = false
     ∧ PrimFloat.eqb PrimFloat.nan
         (add (add (add PrimFloat.nan PrimFloat.nan) PrimFloat.nan) PrimFloat.nan)
       = false).
Proof.
  split; [|split; [|split; [by vm_compute|split; [|by vm_compute]]]].
  - intros num N usage model.
    destruct (calculateCost_rates usage model) as (entry & _ & _ & _ & Hc).
    eexists. split; [exact Hc | reflexivity].
  - intros model cc cr Hinh Hcc Hcr.
    destruct (calculateCost_unfold
                {| input_tokens := 0%float; output_tokens := 0%float;
                   cache_creation_input_tokens := cc;
                   cache_read_input_tokens := cr |} model Hinh)
      as (entry & pricing & _ & Hp & Hc).
    rewrite Hc. cbn [input_tokens output_tokens cache_creation_input_tokens
                     cache_read_input_tokens]. rewrite Hcc, Hcr.
    clear Hc Hcc Hcr. each_record Hp entry.
  - intros model cc cr Hinh Hcc Hcr.
    destruct (calculateCost_unfold
                {| input_tokens := 0%Q; output_tokens := 0%Q;
                   cache_creation_input_tokens := cc;
                   cache_read_input_tokens := cr |} model Hinh)
      as (entry & pricing & _ & Hp & Hc).
    eexists. split; [exact Hc|].
    cbn [total input output cacheWrite cacheRead input_tokens output_tokens
         cache_creation_input_tokens cache_read_input_tokens].
    unfold component_cost. cbn [add mul div lit Q_number].
    rewrite Hcc, Hcr. repeat split; unfold Qdiv; ring.
Qed.

(** C7. Two calls evaluated in binary64, the arithmetic of the program,
    and over the rationals. Two million cache-write tokens and half a
    million cache-read tokens on 'claude-3-haiku-20240307' cost
    2 × 0.3125 = 0.625 and 0.5 × 0.025 = 0.0125, in total 0.6375; one
    million input tokens on 'claude-3-opus-20240229' cost 15. In binary64
    each field is the very number its decimal literal denotes. *)
Theorem calculateCost_examples :
  calculateCost (num := float)
    {| input_tokens := lit 0; output_tokens := lit 0;
       cache_creation_input_tokens := Some (lit 2000000);
       cache_read_input_tokens := Some (lit 500000) |}
    (Some "claude-3-haiku-20240307")
  = Some {| total := lit 0.6375; input := lit 0; output := lit 0;
            cacheWrite := lit 0.625; cacheRead := lit 0.0125 |}
  ∧ mul (num := float) (lit 2) (lit 0.3125) = lit 0.625
  ∧ mul (num := float) (lit 0.5) (lit 0.025) = lit 0.0125
  ∧ calculateCost (num := float)
      {| input_tokens := lit 1000000; output_tokens := lit 0;
         cache_creation_input_tokens := None;
         cache_read_input_tokens := None |}
      (Some "claude-3-opus-20240229")
    = Some {| total := lit 15; input := lit 15; output := lit 0;
              cacheWrite := lit 0; cacheRead := lit 0 |}
  ∧ (∃ cost,
       calculateCost (num := Q)
         {| input_tokens := lit 0; output_tokens := lit 0;
            cache_creation_input_tokens := Some (lit 2000000);
            cache_read_input_tokens := Some (lit 500000) |}
         (Some "claude-3-haiku-20240307") = Some cost
       ∧ input cost == 0 ∧ output cost == 0
       ∧ cacheWrite cost == 2 * 0.3125 ∧ cacheWrite cost == 0.625
       ∧ cacheRead cost == 0.5 * 0.025 ∧ cacheRead cost == 0.0125
       ∧ total cost == 0.6375)%Q
  ∧ (∃ cost,
       calculateCost (num := Q)
         {| input_tokens := lit 1000000; output_tokens := lit 0;
            cache_creation_input_tokens := None;
            cache_read_input_tokens := None |}
         (Some "claude-3-opus-20240229") = Some cost
       ∧ input cost == 15 ∧ output cost == 0 ∧ cacheWrite cost == 0
       ∧ cacheRead cost == 0 ∧ total cost == 15)%Q.
Proof.
  split; [by vm_compute|]. split; [by vm_compute|]. split; [by vm_compute|].
  split; [by vm_compute|].
  split; (eexists; split; [vm_compute; reflexivity|]); vm_compute; repeat split.
Qed.

(** ** The convention on the cache rates *)

(** In binary64 the convention is not an equality: 3 × 0.10 rounds to
    another number than the one 0.30 denotes. *)
Lemma convention_inexact_float :
  PrimFloat.eqb (mul (lit 3) (lit 0.10)) (lit 0.30) = false.
Proof. vm_compute. reflexivity. Qed.

(** C8. Every record of the table, and the default record, has
    cacheWrite = input × 1.25 and cacheRead = input × 0.10: exactly over
    the rationals, and within 10^-12 in binary64. The store holds the
    records of the table followed by the default record, and every key of
    the table points into it. *)
Theorem rates_follow_convention :
  Forall follows_convention (objects (num := Q))
  ∧ Forall (λ p, follows_convention_float p = true) (objects (num := float))
  ∧ (∀ key entry, MODEL_PRICING !! key = Some entry →
       ∃ p q, objects (num := Q) !! entry = Some p ∧ follows_convention p
              ∧ objects (num := float) !! entry = Some q
              ∧ follows_convention_float q = true)
  ∧ (∃ p q, objects (num := Q) !! DEFAULT_PRICING = Some p ∧ follows_convention p
            ∧ objects (num := float) !! DEFAULT_PRICING = Some q
            ∧ follows_convention_float q = true).
Proof.
  assert (HQ : Forall follows_convention (objects (num := Q))).
  { repeat apply Forall_cons_2; [..|apply Forall_nil_2]; by vm_compute. }
  assert (HF : Forall (λ p, follows_convention_float p = true) (objects (num := float))).
  { repeat apply Forall_cons_2; [..|apply Forall_nil_2]; by vm_compute. }
  split; [exact HQ|]. split; [exact HF|].
  rewrite Forall_lookup in HQ. rewrite Forall_lookup in HF. split.
  - intros key entry Hlook.
    destruct (MODEL_PRICING_object (num := Q) _ _ Hlook) as (p & _ & Hp).
    destruct (MODEL_PRICING_object (num := float) _ _ Hlook) as (q & _ & Hq).
    exists (evalLiteral p), (evalLiteral q).
    split; [exact Hp|]. split; [by eapply (HQ entry)|]. split; [exact Hq|].
    by eapply (HF entry).
  - exists (evalLiteral DEFAULT_PRICING_literal), (evalLiteral DEFAULT_PRICING_literal).
    split; [reflexivity|]. split; [by eapply (HQ DEFAULT_PRICING)|].
    split; [reflexivity|]. by eapply (HF DEFAULT_PRICING).
Qed.

(** ** Additivity over the rationals *)

Lemma component_cost_additive (count count1 count2 rate : Q) :
  count == count1 + count2 →
  component_cost count rate
  == component_cost count1 rate + component_cost count2 rate.
Proof.
  intros Hsum. unfold component_cost. cbn [mul div lit Q_number].
  rewrite Hsum. field.
Qed.

(** C10. Over the rationals and for a fixed model, the breakdown of a
    usage that is the fieldwise sum of two usages is, field by field in
    all five fields, the sum of the breakdowns of the two. *)
Theorem calculateCost_additive
    (usage usage1 usage2 : UsageTokens Q) (model : option string) :
  usage_sum usage usage1 usage2 →
  ∃ cost cost1 cost2,
    calculateCost usage model = Some cost
    ∧ calculateCost usage1 model = Some cost1
    ∧ calculateCost usage2 model = Some cost2
    ∧ total cost == total cost1 + total cost2
    ∧ input cost == input cost1 + input cost2
    ∧ output cost == output cost1 + output cost2
    ∧ cacheWrite cost == cacheWrite cost1 + cacheWrite cost2
    ∧ cacheRead cost == cacheRead cost1 + cacheRead cost2.
Proof.
  intros (Hin & Hout & Hcw & Hcr).
  rewrite <- !orZero_Q in Hcw, Hcr.
  destruct (calculateCost_rates usage model) as (entry & He & _ & _ & Hc).
  destruct (calculateCost_rates usage1 model) as (entry1 & He1 & _ & _ & Hc1).
  destruct (calculateCost_rates usage2 model) as (entry2 & He2 & _ & _ & Hc2).
  assert (entry1 = entry) as -> by congruence.
  assert (entry2 = entry) as -> by congruence.
  eexists _, _, _. split; [exact Hc|]. split; [exact Hc1|]. split; [exact Hc2|].
  cbn [total input output cacheWrite cacheRead].
  pose proof (component_cost_additive _ _ _ (rate inputPer1M entry) Hin) as Ai.
  pose proof (component_cost_additive _ _ _ (rate outputPer1M entry) Hout) as Ao.
  pose proof (component_cost_additive _ _ _ (rate cacheWritePer1M entry) Hcw) as Aw.
  pose proof (component_cost_additive _ _ _ (rate cacheReadPer1M entry) Hcr) as Ar.
  split; [|done]. cbn [add Q_number]. rewrite Ai, Ao, Aw, Ar. ring.
Qed.

Lemma calculateCost_additive_witness :
  (∃ cost cost1 cost2,
    calculateCost (num := Q)
      {| input_tokens := 3000; output_tokens := 2000;
         cache_creation_input_tokens := Some 200;
         cache_read_input_tokens := Some 300 |}
      (Some "claude-3-haiku-20240307") = Some cost
    ∧ calculateCost (num := Q)
        {| input_tokens := 1000; output_tokens := 500;
           cache_creation_input_tokens := Some 200;
           cache_read_input_tokens := None |}
        (Some "claude-3-haiku-20240307") = Some cost1
    ∧ calculateCost (num := Q)
        {| input_tokens := 2000; output_tokens := 1500;
           cache_creation_input_tokens := None;
           cache_read_input_tokens := Some 300 |}
        (Some "claude-3-haiku-20240307") = Some cost2
    ∧ total cost == total cost1 + total cost2
    ∧ input cost == input cost1 + input cost2
    ∧ output cost == output cost1 + output cost2
    ∧ cacheWrite cost == cacheWrite cost1 + cacheWrite cost2
    ∧ cacheRead cost == cacheRead cost1 + cacheRead cost2)%Q.
Proof.
  apply calculateCost_additive. vm_compute. repeat split.
Defined.

(** ** The program on the store of the loaded module *)

Section LoadedStore.

Context {num : Type} `{!JSNumber num}.

(** On the store of the loaded module the program on the store computes
    the functions [getModelPricing] and [calculateCost] above. *)
Lemma getModelPricing_initial (model : option string) :
  Effects.getModelPricing (num := num) model Effects.initial
  = (Some (getModelPricing model), Effects.initial).
Proof.
  destruct model as [model|]; [|reflexivity].
  unfold Effects.getModelPricing, getModelPricing.
  destruct (String.eqb model ""); [reflexivity|].
  unfold mbind, Effects.Comp_bind, Effects.bind, Effects.readTable.
  cbn [Effects.table Effects.initial].
  destruct (getProperty MODEL_PRICING model) as [entry|] eqn:Hlook.
  - rewrite bool_decide_eq_true_2 by eauto.
    cbn [Effects.table Effects.initial]. by rewrite Hlook.
  - rewrite bool_decide_eq_false_2 by (by intros [? [=]]).
    generalize (toLowerCase model). intros modelLower.
    repeat case_match; reflexivity.
Qed.

Lemma calculateCost_initial (usage : UsageTokens num) (model : option string) :
  Effects.calculateCost usage model Effects.initial
  = (calculateCost usage model, Effects.initial).
Proof.
  destruct (calculateCost_rates usage model) as (entry & He & _ & _ & Hc).
  rewrite Hc. unfold Effects.calculateCost.
  unfold mbind, Effects.Comp_bind, Effects.bind.
  rewrite getModelPricing_initial, He. reflexivity.
Qed.

End LoadedStore.

(** * Further properties of the module *)

(** ** Which strings reach which record *)

Lemma append_assoc (s t u : string) : (s ++ t) ++ u = s ++ (t ++ u).
Proof.
  induction s as [|c s IH]; [reflexivity|].
  by rewrite !append_cons, IH.
Qed.

(** A pattern found in a string brings every part of the pattern with it. *)
Lemma includes_trans (s pat word : string) :
  includes s pat = true → includes pat word = true → includes s word = true.
Proof.
  rewrite !includes_app. intros (a & b & ->) (c & d & ->).
  exists (a ++ c), (d ++ b). by rewrite !append_assoc.
Qed.

Lemma includes_false_trans (s pat word : string) :
  includes pat word = true → includes s word = false → includes s pat = false.
Proof.
  intros Hword Hs. destruct (includes s pat) eqn:Hpat; [|done].
  by rewrite (includes_trans _ _ _ Hpat Hword) in Hs.
Qed.

(** No family rule matches exactly when none of the three family names
    occurs: each pattern of each rule contains one of them. *)
Lemma no_rule_iff_no_family_name (modelLower : string) :
  Forall (λ r, rule_matches modelLower r = false) family_rules ↔
  includes modelLower "opus" = false ∧ includes modelLower "haiku" = false
  ∧ includes modelLower "sonnet" = false.
Proof.
  split.
  - intros Hrules. rewrite Forall_forall in Hrules.
    pose proof (Hrules (["opus"], "claude-3-opus-20240229")) as Ho.
    pose proof (Hrules (["haiku"], "claude-3-haiku-20240307")) as Hh.
    pose proof (Hrules (["sonnet"], "claude-3-5-sonnet-20241022")) as Hs.
    unfold rule_matches in Ho, Hh, Hs. cbn [existsb fst] in Ho, Hh, Hs.
    rewrite orb_false_r in Ho, Hh, Hs.
    split; [apply Ho|split; [apply Hh|apply Hs]];
      unfold family_rules; set_solver.
  - intros (Ho & Hh & Hs). unfold family_rules, rule_matches.
    repeat apply Forall_cons_2; [..|apply Forall_nil_2];
      cbn [existsb fst]; rewrite ?orb_false_r, ?orb_false_iff; repeat split;
      first [ exact Ho | exact Hh | exact Hs
            | by apply (includes_false_trans _ _ "opus")
            | by apply (includes_false_trans _ _ "haiku")
            | by apply (includes_false_trans _ _ "sonnet") ].
Qed.

(** Every key of the table carries one of the three family names. *)
Lemma MODEL_PRICING_keys_family_name :
  Forall (λ key, includes key "opus" || includes key "haiku"
                 || includes key "sonnet" = true) MODEL_PRICING_literal.*1.
Proof. repeat apply Forall_cons_2; [..|apply Forall_nil_2]; by vm_compute. Qed.

Lemma getModelPricing_default_rules (model : string) :
  getModelPricing (Some model) = Some DEFAULT_PRICING ↔
  MODEL_PRICING !! model = None ∧ Object_prototype !! model = None
  ∧ Forall (λ r, rule_matches (toLowerCase model) r = false) family_rules.
Proof.
  rewrite <- find_None_Forall. split.
  - intros Hdef.
    destruct (Object_prototype !! model) as [value|] eqn:Hproto.
    { exfalso. rewrite (getModelPricing_inherited _ _ Hproto) in Hdef.
      apply Object_prototype_value in Hproto as [_ Hlt].
      injection Hdef as ->. lia. }
    destruct (MODEL_PRICING !! model) as [entry|] eqn:Hlook.
    + exfalso. rewrite (getModelPricing_key _ _ Hlook) in Hdef.
      apply MODEL_PRICING_entry_lt in Hlook. injection Hdef as ->. lia.
    + split; [done|]. split; [done|].
      rewrite (getModelPricing_cascade _ Hlook Hproto) in Hdef.
      destruct (find (rule_matches (toLowerCase model)) family_rules) as [r|] eqn:Hr;
        [|done].
      apply resolve_family_matched in Hr as (entry & Hres & _ & Hlt).
      rewrite Hres in Hdef. injection Hdef as ->. lia.
  - intros (Hlook & Hproto & Hr).
    rewrite (getModelPricing_cascade _ Hlook Hproto). unfold resolve_family.
    by rewrite Hr.
Qed.

(** X1. [getModelPricing] returns the default record exactly when the
    model is absent, or is a string whose lower-cased form contains none of
    "opus", "haiku" and "sonnet" and which is no name inherited from
    [Object.prototype]; whether the string is a key of the table need not
    be asked, since every key contains one of the three names. *)
Theorem getModelPricing_default_family_names (model : option string) :
  getModelPricing model = Some DEFAULT_PRICING ↔
  match model with
  | None => True
  | Some s =>
      includes (toLowerCase s) "opus" = false
      ∧ includes (toLowerCase s) "haiku" = false
      ∧ includes (toLowerCase s) "sonnet" = false
      ∧ inherited (Some s) = false
  end.
Proof.
  destruct model as [s|]; [|done].
  rewrite getModelPricing_default_rules, no_rule_iff_no_family_name, inherited_false.
  split; [by intros (_ & ? & ? & ? & ?)|]. intros (Ho & Hh & Hs & Hproto).
  split; [|done].
  destruct (MODEL_PRICING !! s) as [entry|] eqn:Hlook; [exfalso|done].
  apply MODEL_PRICING_lookup, list_elem_of_lookup_2 in Hlook.
  pose proof MODEL_PRICING_keys_lower as Hlower. rewrite Forall_forall in Hlower.
  pose proof MODEL_PRICING_keys_family_name as Hfam. rewrite Forall_forall in Hfam.
  specialize (Hlower _ Hlook). specialize (Hfam _ Hlook).
  rewrite Hlower in Ho, Hh, Hs. rewrite Ho, Hh, Hs in Hfam. discriminate.
Qed.

(** The table binds different keys to different references. *)
Lemma MODEL_PRICING_inj (key1 key2 : string) (entry : loc) :
  MODEL_PRICING !! key1 = Some entry → MODEL_PRICING !! key2 = Some entry →
  key1 = key2.
Proof. rewrite !MODEL_PRICING_lookup. congruence. Qed.

(** The keys of the table that no family rule resolves to. *)
Lemma exact_only_keys :
  filter (λ key, key ∉ family_rules.*2) MODEL_PRICING_literal.*1
  = ["claude-3-5-sonnet-latest"; "claude-3-5-sonnet-20240620";
     "claude-3-5-haiku-latest"; "claude-3-opus-latest";
     "claude-3-sonnet-20240229"].
Proof. by vm_compute. Qed.

(** X2. The entry of a key that is not the target of a family rule is
    returned for that very key only: no absent, differently spelled or
    differently cased model reaches it. These are the two dated and
    "latest" 3.5-Sonnet aliases, 'claude-3-5-haiku-latest',
    'claude-3-opus-latest' and 'claude-3-sonnet-20240229'. *)
Theorem getModelPricing_exact_only
    (model : option string) (key : string) (entry : loc) :
  MODEL_PRICING !! key = Some entry → key ∉ family_rules.*2 →
  getModelPricing model = Some entry → model = Some key.
Proof.
  intros Hkey Htarget Hres. pose proof (MODEL_PRICING_entry_lt _ _ Hkey) as Hlt.
  destruct model as [s|]; [|injection Hres as <-; lia].
  destruct (Object_prototype !! s) as [value|] eqn:Hproto.
  { exfalso. rewrite (getModelPricing_inherited _ _ Hproto) in Hres.
    apply Object_prototype_value in Hproto as [_ Hgt].
    injection Hres as ->. lia. }
  destruct (MODEL_PRICING !! s) as [e|] eqn:Hlook.
  - rewrite (getModelPricing_key _ _ Hlook) in Hres.
    injection Hres as ->. f_equal. by eapply MODEL_PRICING_inj.
  - exfalso. rewrite (getModelPricing_cascade _ Hlook Hproto) in Hres.
    unfold resolve_family in Hres.
    destruct (find (rule_matches (toLowerCase s)) family_rules) as [r|] eqn:Hr.
    + apply find_some in Hr as [Hin _]. apply list_elem_of_In in Hin.
      apply Htarget. rewrite (MODEL_PRICING_inj _ _ _ Hkey Hres).
      by apply list_elem_of_fmap_2.
    + injection Hres as <-. lia.
Qed.

Lemma getModelPricing_exact_only_witness :
  getModelPricing (Some "claude-3-sonnet-20240229") = Some 9
  ∧ Some "claude-3-sonnet-20240229" = Some "claude-3-sonnet-20240229".
Proof.
  split; [by vm_compute|].
  apply (getModelPricing_exact_only _ "claude-3-sonnet-20240229" 9).
  - by vm_compute.
  - apply (bool_decide_unpack _). by vm_compute.
  - by vm_compute.
Defined.

(** A key is priced by its own entry as the family rules would price it. *)
Lemma pricingOf_key {num : Type} `{!JSNumber num} (key : string) (entry : loc) :
  MODEL_PRICING !! key = Some entry →
  objects (num := num) !! entry
  = resolve_family family_rules (toLowerCase key) ≫= (objects !!.).
Proof.
  rewrite MODEL_PRICING_lookup. intros Hkey.
  repeat (destruct entry as [|entry];
          [injection Hkey as <-; vm_compute; reflexivity|]).
  discriminate Hkey.
Qed.

(** The record a string that is no inherited name is priced with is the
    one the family rules pick for its lower-cased form, whether the string
    is a key or not. *)
Lemma pricingOf_family {num : Type} `{!JSNumber num} (model : string) :
  inherited (Some model) = false →
  pricingOf (num := num) (Some model)
  = resolve_family family_rules (toLowerCase model) ≫= (objects !!.).
Proof.
  intros Hinh%inherited_false.
  unfold pricingOf. destruct (MODEL_PRICING !! model) as [entry|] eqn:Hlook.
  - rewrite (getModelPricing_key _ _ Hlook). by apply pricingOf_key.
  - by rewrite (getModelPricing_cascade _ Hlook Hinh).
Qed.

(** X3. The price does not depend on the case of the letters A-Z in the
    identifier: two strings that are no names inherited from
    [Object.prototype] and differ only in the case of these letters are
    priced with equal records and cost the same for every usage, in any
    arithmetic, also when one of them is a key of the table and the other
    is resolved by family. So are, more generally, two such strings whose
    lower-cased forms are matched by the same family rules. *)
Theorem calculateCost_case_insensitive {num : Type} `{!JSNumber num}
    (usage : UsageTokens num) (model1 model2 : string) :
  inherited (Some model1) = false → inherited (Some model2) = false →
  lowerASCII model1 = lowerASCII model2
  ∨ Forall (λ r, rule_matches (toLowerCase model1) r
                 = rule_matches (toLowerCase model2) r) family_rules →
  pricingOf (num := num) (Some model1) = pricingOf (Some model2)
  ∧ calculateCost usage (Some model1) = calculateCost usage (Some model2).
Proof.
  intros Hinh1 Hinh2 Hlower.
  assert (Hrules : resolve_family family_rules (toLowerCase model1)
                   = resolve_family family_rules (toLowerCase model2)).
  { destruct Hlower as [Hlower|Hrules].
    - by rewrite <- (toLowerCase_lowerASCII model1), Hlower, toLowerCase_lowerASCII.
    - unfold resolve_family. by rewrite (find_agree _ _ _ Hrules). }
  assert (Hp : pricingOf (num := num) (Some model1) = pricingOf (Some model2)).
  { by rewrite !pricingOf_family, Hrules. }
  split; [exact Hp|].
  destruct (calculateCost_unfold usage (Some model1) Hinh1)
    as (entry1 & pricing1 & He1 & Hp1 & ->).
  destruct (calculateCost_unfold usage (Some model2) Hinh2)
    as (entry2 & pricing2 & He2 & Hp2 & ->).
  unfold pricingOf in Hp. rewrite He1, He2 in Hp. cbn [mbind option_bind] in Hp.
  rewrite Hp1, Hp2 in Hp. by injection Hp as ->.
Qed.

Lemma calculateCost_case_insensitive_witness :
  getModelPricing (Some "CLAUDE-3-OPUS-LATEST")
    ≠ getModelPricing (Some "claude-3-opus-latest")
  ∧ calculateCost (num := float)
      {| input_tokens := lit 1200; output_tokens := lit 350;
         cache_creation_input_tokens := None;
         cache_read_input_tokens := Some (lit 9000) |}
      (Some "CLAUDE-3-OPUS-LATEST")
    = calculateCost
        {| input_tokens := lit 1200; output_tokens := lit 350;
           cache_creation_input_tokens := None;
           cache_read_input_tokens := Some (lit 9000) |}
        (Some "claude-3-opus-latest").
Proof.
  split; [by vm_compute|].
  apply calculateCost_case_insensitive; [by vm_compute..|left; by vm_compute].
Defined.

(** X4. The second test of the first rule is dead: wherever "opus-4.5"
    occurs, "opus-4" occurs, so the rule matches exactly when "opus-4"
    occurs. *)
Theorem opus_4_5_test_redundant (modelLower : string) :
  includes modelLower "opus-4" || includes modelLower "opus-4.5"
  = includes modelLower "opus-4".
Proof.
  destruct (includes modelLower "opus-4") eqn:H4; [reflexivity|].
  destruct (includes modelLower "opus-4.5") eqn:H45; [|reflexivity].
  apply includes_opus_4_5 in H45. congruence.
Qed.

(** X13. Apart from the names inherited from [Object.prototype], only a
    model that mentions "opus" or "haiku" is priced otherwise than the
    default: a string that is no inherited name and whose lower-cased form
    contains neither is priced with a record equal to the default record,
    in any arithmetic, whether it is a key, is resolved by a Sonnet rule,
    or is unknown. *)
Theorem pricingOf_default_rates {num : Type} `{!JSNumber num} (model : string) :
  inherited (Some model) = false →
  includes (toLowerCase model) "opus" = false →
  includes (toLowerCase model) "haiku" = false →
  pricingOf (num := num) (Some model) = pricingOf None.
Proof.
  intros Hinh Ho Hh. rewrite (pricingOf_family _ Hinh). unfold resolve_family.
  destruct (find (rule_matches (toLowerCase model)) family_rules) as [r|] eqn:Hr;
    [|reflexivity].
  apply find_some in Hr as [Hin Hmatch]. unfold rule_matches in Hmatch.
  assert (Hno : ∀ pat word, includes pat word = true →
                  includes (toLowerCase model) word = false →
                  includes (toLowerCase model) pat = false)
    by (intros pat word; apply includes_false_trans).
  unfold family_rules in Hin. cbn [In] in Hin.
  destruct Hin as [<-|[<-|[<-|[<-|[<-|[<-|[<-|[]]]]]]]]; cbn [existsb fst snd] in *;
    try (by vm_compute);
    rewrite ?(Hno "opus-4" "opus"), ?(Hno "opus-4.5" "opus"),
            ?(Hno "3-5-haiku" "haiku"), ?(Hno "3.5-haiku" "haiku"),
            ?Ho, ?Hh in Hmatch by done;
    discriminate Hmatch.
Qed.

Lemma pricingOf_default_rates_witness :
  getModelPricing (Some "Claude-Sonnet-4-Latest") ≠ getModelPricing None
  ∧ pricingOf (num := float) (Some "Claude-Sonnet-4-Latest") = pricingOf None.
Proof.
  split; [by vm_compute|].
  apply pricingOf_default_rates; by vm_compute.
Defined.

(** ** Costs over the rationals *)

Lemma objects_regular : Forall regular_rates (objects (num := Q)).
Proof.
  repeat apply Forall_cons_2; [..|apply Forall_nil_2];
    vm_compute; repeat split; discriminate.
Qed.

Lemma pricing_regular (entry : loc) (pricing : ModelPricing Q) :
  objects !! entry = Some pricing → regular_rates pricing.
Proof.
  intros Hp. pose proof objects_regular as Hall.
  rewrite Forall_lookup in Hall. by eapply Hall.
Qed.

Lemma component_cost_Q (count rate : Q) :
  component_cost count rate == count * rate * (1 # 1000000).
Proof. unfold component_cost. cbn [mul div lit Q_number]. field. Qed.

Lemma component_cost_sign (count rate : Q) :
  (0 < rate → (0 <= count ↔ 0 <= component_cost count rate))%Q.
Proof.
  intros Hrate. rewrite component_cost_Q. split; intros Hc.
  - nra.
  - destruct (Qlt_le_dec count 0) as [Hneg|]; [exfalso|done]. nra.
Qed.

Lemma component_cost_mono_count (count1 count2 rate : Q) :
  (0 <= rate → count1 <= count2 →
   component_cost count1 rate <= component_cost count2 rate)%Q.
Proof. intros Hrate Hc. rewrite !component_cost_Q. nra. Qed.

Lemma component_cost_mono_rate (count rate1 rate2 : Q) :
  (0 <= count → rate1 <= rate2 →
   component_cost count rate1 <= component_cost count rate2)%Q.
Proof. intros Hc Hrate. rewrite !component_cost_Q. nra. Qed.

Lemma component_cost_orZero (x : option Q) (rate : Q) :
  component_cost (orZero x) rate == component_cost (default 0%Q x) rate.
Proof. by rewrite !component_cost_Q, orZero_Q. Qed.

(** The shape of the breakdown over the rationals for a model that is no
    inherited name, with the facts on the record it is computed from. *)
Lemma calculateCost_Q (usage : UsageTokens Q) (model : option string) :
  inherited model = false →
  ∃ pricing cost,
    pricingOf model = Some pricing ∧ regular_rates pricing ∧
    calculateCost usage model = Some cost ∧
    input cost = component_cost (input_tokens usage) (inputPer1M pricing) ∧
    output cost = component_cost (output_tokens usage) (outputPer1M pricing) ∧
    cacheWrite cost ==
      component_cost (default 0%Q (cache_creation_input_tokens usage))
                     (cacheWritePer1M pricing) ∧
    cacheRead cost ==
      component_cost (default 0%Q (cache_read_input_tokens usage))
                     (cacheReadPer1M pricing) ∧
    total cost == input cost + output cost + cacheWrite cost + cacheRead cost.
Proof.
  intros Hinh.
  destruct (calculateCost_unfold usage model Hinh)
    as (entry & pricing & He & Hp & Hc).
  eexists pricing, _. split; [unfold pricingOf; by rewrite He|].
  split; [by eapply pricing_regular|]. split; [exact Hc|].
  cbn [input output cacheWrite cacheRead total].
  split; [done|]. split; [done|].
  split; [apply component_cost_orZero|]. split; [apply component_cost_orZero|].
  reflexivity.
Qed.

(** X5. [calculateCost] does not validate the counts: over the rationals,
    for every model that is no name inherited from [Object.prototype], each
    component has the sign of its count, so a negative count is charged as
    a negative amount; a usage without negative counts never has a negative
    total. *)
Theorem calculateCost_sign (usage : UsageTokens Q) (model : option string) :
  inherited model = false →
  ∃ cost,
    calculateCost usage model = Some cost
    ∧ (0 <= input_tokens usage ↔ 0 <= input cost)%Q
    ∧ (0 <= output_tokens usage ↔ 0 <= output cost)%Q
    ∧ (0 <= default 0 (cache_creation_input_tokens usage) ↔ 0 <= cacheWrite cost)%Q
    ∧ (0 <= default 0 (cache_read_input_tokens usage) ↔ 0 <= cacheRead cost)%Q
    ∧ (input_tokens usage < 0 → input cost < 0)%Q
    ∧ (usage_nonneg usage → 0 <= total cost)%Q.
Proof.
  intros Hinh.
  destruct (calculateCost_Q usage model Hinh)
    as (pricing & cost & _ & Hreg & Hc & Hi & Ho & Hw & Hr & Ht).
  destruct Hreg as ([Hi1 _] & [Ho1 _] & [Hw1 _] & [Hr1 _] & _).
  pose proof (component_cost_sign (input_tokens usage) (inputPer1M pricing)) as Si.
  pose proof (component_cost_sign (output_tokens usage) (outputPer1M pricing)) as So.
  pose proof (component_cost_sign
                (default 0%Q (cache_creation_input_tokens usage))
                (cacheWritePer1M pricing)) as Sw.
  pose proof (component_cost_sign
                (default 0%Q (cache_read_input_tokens usage))
                (cacheReadPer1M pricing)) as Sr.
  rewrite <- Hi in Si. rewrite <- Ho in So. rewrite <- Hw in Sw. rewrite <- Hr in Sr.
  assert (Si' := Si ltac:(lra)). assert (So' := So ltac:(lra)).
  assert (Sw' := Sw ltac:(lra)). assert (Sr' := Sr ltac:(lra)).
  exists cost. split; [exact Hc|]. repeat split; try tauto.
  - intros Hneg. destruct (Qlt_le_dec (input cost) 0) as [|Hpos]; [done|].
    apply Si' in Hpos. lra.
  - intros (Hn1 & Hn2 & Hn3 & Hn4). rewrite Ht.
    apply Si' in Hn1. apply So' in Hn2. apply Sw' in Hn3. apply Sr' in Hn4. lra.
Qed.

Lemma calculateCost_sign_witness :
  ∃ cost,
    calculateCost (num := Q)
      {| input_tokens := lit (-500); output_tokens := lit 200;
         cache_creation_input_tokens := None;
         cache_read_input_tokens := Some (lit 40) |}
      (Some "claude-3-opus-latest") = Some cost
    ∧ (input cost < 0)%Q.
Proof.
  destruct (calculateCost_sign
              {| input_tokens := lit (-500); output_tokens := lit 200;
                 cache_creation_input_tokens := None;
                 cache_read_input_tokens := Some (lit 40) |}
              (Some "claude-3-opus-latest"))
    as (cost & Hc & _ & _ & _ & _ & Hneg & _); [by vm_compute|].
  exists cost. split; [exact Hc|]. apply Hneg. by vm_compute.
Defined.

(** X6. Over the rationals the cost is monotone in the usage, for every
    model that is no inherited name: a usage that is fieldwise at most
    another costs at most as much in each component and in total. *)
Theorem calculateCost_monotone
    (usage1 usage2 : UsageTokens Q) (model : option string) :
  inherited model = false →
  usage_le usage1 usage2 →
  ∃ cost1 cost2,
    calculateCost usage1 model = Some cost1
    ∧ calculateCost usage2 model = Some cost2
    ∧ (input cost1 <= input cost2 ∧ output cost1 <= output cost2
       ∧ cacheWrite cost1 <= cacheWrite cost2
       ∧ cacheRead cost1 <= cacheRead cost2
       ∧ total cost1 <= total cost2)%Q.
Proof.
  intros Hinh (Li & Lo & Lw & Lr).
  destruct (calculateCost_Q usage1 model Hinh)
    as (pricing & cost1 & Hp1 & Hreg & Hc1 & Hi1 & Ho1 & Hw1 & Hr1 & Ht1).
  destruct (calculateCost_Q usage2 model Hinh)
    as (pricing2 & cost2 & Hp2 & _ & Hc2 & Hi2 & Ho2 & Hw2 & Hr2 & Ht2).
  assert (pricing2 = pricing) as -> by congruence.
  destruct Hreg as ([Ri _] & [Ro _] & [Rw _] & [Rr _] & _).
  exists cost1, cost2. split; [exact Hc1|]. split; [exact Hc2|].
  assert (input cost1 <= input cost2)%Q as Mi.
  { rewrite Hi1, Hi2. apply component_cost_mono_count; [lra|done]. }
  assert (output cost1 <= output cost2)%Q as Mo.
  { rewrite Ho1, Ho2. apply component_cost_mono_count; [lra|done]. }
  assert (cacheWrite cost1 <= cacheWrite cost2)%Q as Mw.
  { rewrite Hw1, Hw2. apply component_cost_mono_count; [lra|done]. }
  assert (cacheRead cost1 <= cacheRead cost2)%Q as Mr.
  { rewrite Hr1, Hr2. apply component_cost_mono_count; [lra|done]. }
  repeat split; try done. rewrite Ht1, Ht2. lra.
Qed.

Lemma calculateCost_monotone_witness :
  ∃ cost1 cost2,
    calculateCost (num := Q)
      {| input_tokens := lit 1000; output_tokens := lit 200;
         cache_creation_input_tokens := None;
         cache_read_input_tokens := Some (lit 50) |}
      (Some "claude-sonnet-4-20250514") = Some cost1
    ∧ calculateCost (num := Q)
        {| input_tokens := lit 1500; output_tokens := lit 200;
           cache_creation_input_tokens := Some (lit 10);
           cache_read_input_tokens := Some (lit 50) |}
        (Some "claude-sonnet-4-20250514") = Some cost2
    ∧ (input cost1 <= input cost2 ∧ output cost1 <= output cost2
       ∧ cacheWrite cost1 <= cacheWrite cost2
       ∧ cacheRead cost1 <= cacheRead cost2
       ∧ total cost1 <= total cost2)%Q.
Proof.
  apply calculateCost_monotone; [by vm_compute|].
  vm_compute. repeat split; discriminate.
Defined.

Lemma pricingOf_haiku_3 :
  pricingOf (num := Q) (Some "claude-3-haiku-20240307")
  = Some {| inputPer1M := 0.25; outputPer1M := 1.25;
            cacheWritePer1M := 0.3125; cacheReadPer1M := 0.025 |}%Q.
Proof. by vm_compute. Qed.

Lemma pricingOf_opus_3 :
  pricingOf (num := Q) (Some "claude-3-opus-20240229")
  = Some {| inputPer1M := 15; outputPer1M := 75;
            cacheWritePer1M := 18.75; cacheReadPer1M := 1.5 |}%Q.
Proof. by vm_compute. Qed.

(** X7. Whatever the model argument is, a name inherited from
    [Object.prototype] apart (absent, a key, a string resolved by family or
    an unknown one), a usage without negative counts costs, over the
    rationals, at least what it costs on 'claude-3-haiku-20240307' and at
    most what it costs on 'claude-3-opus-20240229', in each component and
    in total. *)
Theorem calculateCost_between_haiku_and_opus
    (usage : UsageTokens Q) (model : option string) :
  inherited model = false →
  usage_nonneg usage →
  ∃ low cost high,
    calculateCost usage (Some "claude-3-haiku-20240307") = Some low
    ∧ calculateCost usage model = Some cost
    ∧ calculateCost usage (Some "claude-3-opus-20240229") = Some high
    ∧ (input low <= input cost <= input high
       ∧ output low <= output cost <= output high
       ∧ cacheWrite low <= cacheWrite cost <= cacheWrite high
       ∧ cacheRead low <= cacheRead cost <= cacheRead high
       ∧ total low <= total cost <= total high)%Q.
Proof.
  intros Hinh (Ni & No & Nw & Nr).
  destruct (calculateCost_Q usage (Some "claude-3-haiku-20240307"))
    as (plow & low & Hpl & _ & Hcl & Hil & Hol & Hwl & Hrl & Htl); [by vm_compute|].
  destruct (calculateCost_Q usage model Hinh)
    as (pricing & cost & _ & Hreg & Hc & Hi & Ho & Hw & Hr & Ht).
  destruct (calculateCost_Q usage (Some "claude-3-opus-20240229"))
    as (phigh & high & Hph & _ & Hch & Hih & Hoh & Hwh & Hrh & Hth); [by vm_compute|].
  rewrite pricingOf_haiku_3 in Hpl. injection Hpl as <-.
  rewrite pricingOf_opus_3 in Hph. injection Hph as <-.
  cbn [inputPer1M outputPer1M cacheWritePer1M cacheReadPer1M] in *.
  destruct Hreg as ([Ri1 Ri2] & [Ro1 Ro2] & [Rw1 Rw2] & [Rr1 Rr2] & _).
  exists low, cost, high. split; [exact Hcl|]. split; [exact Hc|]. split; [exact Hch|].
  assert (input low <= input cost <= input high)%Q as Bi.
  { rewrite Hil, Hi, Hih. split; by apply component_cost_mono_rate. }
  assert (output low <= output cost <= output high)%Q as Bo.
  { rewrite Hol, Ho, Hoh. split; by apply component_cost_mono_rate. }
  assert (cacheWrite low <= cacheWrite cost <= cacheWrite high)%Q as Bw.
  { rewrite Hwl, Hw, Hwh. split; by apply component_cost_mono_rate. }
  assert (cacheRead low <= cacheRead cost <= cacheRead high)%Q as Br.
  { rewrite Hrl, Hr, Hrh. split; by apply component_cost_mono_rate. }
  split; [exact Bi|]. split; [exact Bo|]. split; [exact Bw|]. split; [exact Br|].
  rewrite Htl, Ht, Hth. lra.
Qed.

Lemma calculateCost_between_haiku_and_opus_witness :
  ∃ low cost high,
    calculateCost (num := Q)
      {| input_tokens := lit 4000; output_tokens := lit 800;
         cache_creation_input_tokens := Some (lit 100);
         cache_read_input_tokens := None |}
      (Some "claude-3-haiku-20240307") = Some low
    ∧ calculateCost (num := Q)
        {| input_tokens := lit 4000; output_tokens := lit 800;
           cache_creation_input_tokens := Some (lit 100);
           cache_read_input_tokens := None |}
        (Some "some-future-model") = Some cost
    ∧ calculateCost (num := Q)
        {| input_tokens := lit 4000; output_tokens := lit 800;
           cache_creation_input_tokens := Some (lit 100);
           cache_read_input_tokens := None |}
        (Some "claude-3-opus-20240229") = Some high
    ∧ (input low <= input cost <= input high
       ∧ output low <= output cost <= output high
       ∧ cacheWrite low <= cacheWrite cost <= cacheWrite high
       ∧ cacheRead low <= cacheRead cost <= cacheRead high
       ∧ total low <= total cost <= total high)%Q.
Proof.
  apply calculateCost_between_haiku_and_opus; [by vm_compute|].
  vm_compute. repeat split; discriminate.
Defined.

(** X8. For every model that is no inherited name, over the rationals,
    every kind of token is priced as a multiple of the input rate of the
    resolved record: an output token as 5 input tokens, a cache-write token
    as 1.25 and a cache-read token as 0.10. The total is the input-rate
    cost of input + 5 output + 1.25 cache-write + 0.10 cache-read tokens. *)
Theorem calculateCost_input_equivalents
    (usage : UsageTokens Q) (model : option string) :
  inherited model = false →
  ∃ pricing cost,
    pricingOf model = Some pricing
    ∧ calculateCost usage model = Some cost
    ∧ (output cost
       == 5 * component_cost (output_tokens usage) (inputPer1M pricing)
       ∧ cacheWrite cost
         == 1.25 * component_cost (default 0 (cache_creation_input_tokens usage))
                                  (inputPer1M pricing)
       ∧ cacheRead cost
         == 0.10 * component_cost (default 0 (cache_read_input_tokens usage))
                                  (inputPer1M pricing)
       ∧ total cost
         == component_cost
              (input_tokens usage + 5 * output_tokens usage
               + 1.25 * default 0 (cache_creation_input_tokens usage)
               + 0.10 * default 0 (cache_read_input_tokens usage))
              (inputPer1M pricing))%Q.
Proof.
  intros Hinh.
  destruct (calculateCost_Q usage model Hinh)
    as (pricing & cost & Hp & Hreg & Hc & Hi & Ho & Hw & Hr & Ht).
  destruct Hreg as (_ & _ & _ & _ & Ro & Rw & Rr).
  exists pricing, cost. split; [exact Hp|]. split; [exact Hc|].
  assert (output cost
          == 5 * component_cost (output_tokens usage) (inputPer1M pricing))%Q as Eo.
  { rewrite Ho, !component_cost_Q, Ro. ring. }
  assert (cacheWrite cost
          == 1.25 * component_cost (default 0 (cache_creation_input_tokens usage))
                                   (inputPer1M pricing))%Q as Ew.
  { rewrite Hw, !component_cost_Q, Rw. ring. }
  assert (cacheRead cost
          == 0.10 * component_cost (default 0 (cache_read_input_tokens usage))
                                   (inputPer1M pricing))%Q as Er.
  { rewrite Hr, !component_cost_Q, Rr. ring. }
  repeat split; try done.
  rewrite Ht, Eo, Ew, Er, Hi, !component_cost_Q. ring.
Qed.

Lemma calculateCost_input_equivalents_witness :
  ∃ pricing cost,
    pricingOf (num := Q) (Some "Claude-Haiku") = Some pricing
    ∧ calculateCost (num := Q)
        {| input_tokens := lit 1000; output_tokens := lit 300;
           cache_creation_input_tokens := Some (lit 80);
           cache_read_input_tokens := None |}
        (Some "Claude-Haiku") = Some cost
    ∧ (total cost == component_cost (1000 + 5 * 300 + 1.25 * 80 + 0.10 * 0)
                                    (inputPer1M pricing))%Q.
Proof.
  destruct (calculateCost_input_equivalents
              {| input_tokens := lit 1000; output_tokens := lit 300;
                 cache_creation_input_tokens := Some (lit 80);
                 cache_read_input_tokens := None |}
              (Some "Claude-Haiku"))
    as (pricing & cost & Hp & Hc & _ & _ & _ & Ht); [by vm_compute|].
  exists pricing, cost. split; [exact Hp|]. split; [exact Hc|]. exact Ht.
Defined.

(** ** Costs in binary64 *)

Lemma float_add_nan_l (y : float) : PrimFloat.add PrimFloat.nan y = PrimFloat.nan.
Proof. apply Prim2SF_inj. rewrite add_spec. reflexivity. Qed.

(** On every record of the store: a count of [NaN] costs [NaN], a count of
    zero costs zero, and a count of one million costs the rate itself. *)
Lemma component_cost_float (entry : loc) (pricing : ModelPricing float) :
  objects !! entry = Some pricing →
  Forall (λ rate, component_cost PrimFloat.nan rate = PrimFloat.nan
                  ∧ component_cost (lit 0) rate = 0%float
                  ∧ component_cost (lit 1000000) rate = rate)
    [inputPer1M pricing; outputPer1M pricing;
     cacheWritePer1M pricing; cacheReadPer1M pricing].
Proof.
  intros Hp.
  repeat (destruct entry as [|entry];
          [injection Hp as <-; vm_compute; repeat constructor|]).
  discriminate Hp.
Qed.

(** X9. In binary64 a [NaN] count is handled in two ways. In the
    required field [input_tokens] it spreads: the input cost and the total
    are [NaN], whatever the other counts and the model are. In the optional
    field [cache_creation_input_tokens] it is dropped by [|| 0]: whatever
    the other counts are, the breakdown is the one of the same usage with
    the field absent, and for a model that is no name inherited from
    [Object.prototype] the cache-write cost is 0. *)
Theorem calculateCost_nan_counts :
  (∀ (usage : UsageTokens float) (model : option string),
     input_tokens usage = PrimFloat.nan →
     ∃ cost,
       calculateCost usage model = Some cost
       ∧ input cost = PrimFloat.nan ∧ total cost = PrimFloat.nan)
  ∧ (∀ (input_tokens output_tokens : float) (cache_read_input_tokens : option float)
       (model : option string),
       calculateCost
         {| input_tokens := input_tokens; output_tokens := output_tokens;
            cache_creation_input_tokens := Some PrimFloat.nan;
            cache_read_input_tokens := cache_read_input_tokens |} model
       = calculateCost
           {| input_tokens := input_tokens; output_tokens := output_tokens;
              cache_creation_input_tokens := None;
              cache_read_input_tokens := cache_read_input_tokens |} model
       ∧ (inherited model = false →
          ∃ cost,
            calculateCost
              {| input_tokens := input_tokens; output_tokens := output_tokens;
                 cache_creation_input_tokens := Some PrimFloat.nan;
                 cache_read_input_tokens := cache_read_input_tokens |} model
            = Some cost
            ∧ cacheWrite cost = 0%float)).
Proof.
  split.
  - intros usage model Hin.
    destruct (calculateCost_rates usage model) as (entry & _ & _ & _ & Hc).
    eexists. split; [exact Hc|]. cbn [input total]. rewrite Hin.
    assert (Hnan : component_cost PrimFloat.nan (rate inputPer1M entry)
                   = PrimFloat.nan).
    { unfold rate. destruct (objects !! entry) as [pricing|] eqn:Hp; [|by vm_compute].
      pose proof (component_cost_float _ _ Hp) as Hrates.
      rewrite !Forall_cons in Hrates. by destruct Hrates as ((? & _) & _). }
    rewrite Hnan. split; [done|].
    cbn [add float_number]. by rewrite !float_add_nan_l.
  - intros i o cr model. split; [reflexivity|]. intros Hinh.
    destruct (calculateCost_unfold
                {| input_tokens := i; output_tokens := o;
                   cache_creation_input_tokens := Some PrimFloat.nan;
                   cache_read_input_tokens := cr |} model Hinh)
      as (entry & pricing & _ & Hp & Hc).
    eexists. split; [exact Hc|]. cbn [cacheWrite].
    pose proof (component_cost_float _ _ Hp) as Hrates.
    rewrite !Forall_cons in Hrates.
    by destruct Hrates as (_ & _ & (_ & Hzero & _) & _).
Qed.

Lemma calculateCost_nan_counts_witness :
  (∃ cost,
     calculateCost
       {| input_tokens := PrimFloat.nan; output_tokens := lit 700;
          cache_creation_input_tokens := None;
          cache_read_input_tokens := Some (lit 30) |}
       (Some "claude-3-5-haiku-latest") = Some cost
     ∧ input cost = PrimFloat.nan ∧ total cost = PrimFloat.nan)
  ∧ (∃ cost,
       calculateCost
         {| input_tokens := lit 1000; output_tokens := lit 700;
            cache_creation_input_tokens := Some PrimFloat.nan;
            cache_read_input_tokens := Some (lit 30) |}
         (Some "claude-3-5-haiku-latest") = Some cost
       ∧ cacheWrite cost = 0%float).
Proof.
  destruct calculateCost_nan_counts as [Hinput Hcache]. split.
  - by apply Hinput.
  - by apply (Hcache (lit 1000) (lit 700) (Some (lit 30))
                     (Some "claude-3-5-haiku-latest")).
Defined.

(** X10. In binary64, for every model that is no name inherited from
    [Object.prototype], one million tokens of a kind cost exactly the
    per-million rate of the record the model resolves to, in each of the
    four components: the division by 1,000,000 and the multiplication by
    the rate lose nothing. *)
Theorem calculateCost_one_million (model : option string) :
  inherited model = false →
  ∃ pricing cost,
    pricingOf (num := float) model = Some pricing
    ∧ calculateCost
        {| input_tokens := lit 1000000; output_tokens := lit 1000000;
           cache_creation_input_tokens := Some (lit 1000000);
           cache_read_input_tokens := Some (lit 1000000) |} model = Some cost
    ∧ input cost = inputPer1M pricing
    ∧ output cost = outputPer1M pricing
    ∧ cacheWrite cost = cacheWritePer1M pricing
    ∧ cacheRead cost = cacheReadPer1M pricing.
Proof.
  intros Hinh.
  destruct (calculateCost_unfold (num := float)
              {| input_tokens := lit 1000000; output_tokens := lit 1000000;
                 cache_creation_input_tokens := Some (lit 1000000);
                 cache_read_input_tokens := Some (lit 1000000) |} model Hinh)
    as (entry & pricing & He & Hp & Hc).
  pose proof (component_cost_float _ _ Hp) as Hrates.
  rewrite !Forall_cons in Hrates.
  destruct Hrates as ((_ & _ & Hi) & (_ & _ & Ho) & (_ & _ & Hw) & (_ & _ & Hr) & _).
  eexists pricing, _. split; [unfold pricingOf; by rewrite He|].
  split; [exact Hc|]. cbn [input output cacheWrite cacheRead].
  cbn [input_tokens output_tokens cache_creation_input_tokens cache_read_input_tokens].
  change (orZero (Some (lit 1000000))) with (lit (num := float) 1000000).
  done.
Qed.

Lemma calculateCost_one_million_witness :
  ∃ pricing cost,
    pricingOf (num := float) (Some "my-haiku-model") = Some pricing
    ∧ calculateCost
        {| input_tokens := lit 1000000; output_tokens := lit 1000000;
           cache_creation_input_tokens := Some (lit 1000000);
           cache_read_input_tokens := Some (lit 1000000) |}
        (Some "my-haiku-model") = Some cost
    ∧ input cost = inputPer1M pricing
    ∧ output cost = outputPer1M pricing
    ∧ cacheWrite cost = cacheWritePer1M pricing
    ∧ cacheRead cost = cacheReadPer1M pricing.
Proof. apply calculateCost_one_million. by vm_compute. Defined.

Lemma float_mul_nan_r (x : float) : PrimFloat.mul x PrimFloat.nan = PrimFloat.nan.
Proof.
  apply Prim2SF_inj. rewrite mul_spec.
  change (Prim2SF PrimFloat.nan) with S754_nan. by destruct (Prim2SF x).
Qed.

(** X14. The names an object literal inherits from [Object.prototype] are
    not priced: for each of them, which is no key of the table, the direct
    match of [getModelPricing] returns the inherited object, which has no
    rates, and [calculateCost] returns, in binary64, a breakdown whose five
    fields are [NaN], for every usage. *)
Theorem calculateCost_inherited_nan (usage : UsageTokens float) (name : string) :
  name ∈ Object_prototype_names →
  MODEL_PRICING !! name = None
  ∧ (∃ value, getModelPricing (Some name) = Some value
              ∧ value ≠ DEFAULT_PRICING
              ∧ objects (num := float) !! value = None)
  ∧ calculateCost usage (Some name)
    = Some {| total := PrimFloat.nan; input := PrimFloat.nan;
              output := PrimFloat.nan; cacheWrite := PrimFloat.nan;
              cacheRead := PrimFloat.nan |}.
Proof.
  intros Hname.
  assert (Hinh : inherited (Some name) = true)
    by (unfold inherited; by apply bool_decide_eq_true_2).
  destruct (Object_prototype !! name) as [value|] eqn:Hproto;
    [|apply inherited_false in Hproto; congruence].
  destruct (getModelPricing_inherited_object _ _ Hproto)
    as (Hown & _ & _ & Hres & Hne & Hobj).
  split; [done|]. split; [by eauto|].
  rewrite (calculateCost_inherited usage _ Hinh).
  unfold component_cost. cbn [add mul div nan float_number].
  by rewrite !float_mul_nan_r, !float_add_nan_l.
Qed.

Lemma calculateCost_inherited_nan_witness :
  calculateCost (num := float)
    {| input_tokens := lit 1200; output_tokens := lit 350;
       cache_creation_input_tokens := None;
       cache_read_input_tokens := Some (lit 9000) |}
    (Some "hasOwnProperty")
  = Some {| total := PrimFloat.nan; input := PrimFloat.nan;
            output := PrimFloat.nan; cacheWrite := PrimFloat.nan;
            cacheRead := PrimFloat.nan |}.
Proof.
  apply calculateCost_inherited_nan. apply (bool_decide_unpack _). by vm_compute.
Defined.

(** ** The functions on a store other than the loaded one *)

(** A string that a family rule matches is no inherited name, and neither
    is the key a rule resolves to. *)
Lemma matched_not_inherited (model : string) (r : list string * string) :
  find (rule_matches (toLowerCase model)) family_rules = Some r →
  Object_prototype !! model = None.
Proof.
  intros Hr. destruct (Object_prototype !! model) as [value|] eqn:Hproto; [|done].
  destruct (inherited_apart _ _ Hproto) as (_ & _ & Hnone). congruence.
Qed.

Lemma family_rules_not_inherited :
  Forall (λ r, Object_prototype !! r.2 = None) family_rules.
Proof. repeat apply Forall_cons_2; [..|apply Forall_nil_2]; by vm_compute. Qed.

Section OtherStores.

Context {num : Type} `{!JSNumber num}.

(** What [getModelPricing] returns on any store: a call never throws, and
    its value is read from the table of the store, directly or through the
    first family rule that matches. *)
Lemma getModelPricing_run (σ : Effects.Store (num := num)) (model : string) :
  model ≠ "" →
  Effects.getModelPricing (Some model) σ
  = (Some match getProperty (Effects.table σ) model with
          | Some entry => Some entry
          | None =>
              match find (rule_matches (toLowerCase model)) family_rules with
              | Some r => getProperty (Effects.table σ) r.2
              | None => Some DEFAULT_PRICING
              end
          end, σ).
Proof.
  intros Hne. unfold Effects.getModelPricing.
  destruct (String.eqb_spec model ""); [done|].
  unfold mbind, Effects.Comp_bind, Effects.bind, Effects.readTable.
  destruct (getProperty (Effects.table σ) model) as [entry|] eqn:Hlook.
  - rewrite bool_decide_eq_true_2 by eauto. by rewrite Hlook.
  - rewrite bool_decide_eq_false_2 by (by intros [? [=]]).
    unfold family_rules, rule_matches. cbn [find existsb fst snd].
    generalize (toLowerCase model). intros modelLower.
    unfold Effects.ret. rewrite !orb_false_r.
    repeat case_match; try reflexivity; try discriminate.
Qed.

(** [calculateCost] throws exactly when [getModelPricing] returned
    [undefined]. *)
Lemma calculateCost_run (σ : Effects.Store (num := num))
    (usage : UsageTokens num) (model : option string) (pricing : option loc) :
  Effects.getModelPricing model σ = (Some pricing, σ) →
  (Effects.calculateCost usage model σ).1 = None ↔ pricing = None.
Proof.
  intros Hrun. unfold Effects.calculateCost.
  unfold mbind at 1 2 3 4 5. unfold Effects.Comp_bind, Effects.bind.
  rewrite Hrun. unfold Effects.readField.
  destruct pricing as [entry|]; by cbn.
Qed.

(** X11. The family rules read the table at keys written in the code. On
    a store whose table lacks the key the first matching rule resolves to,
    [getModelPricing] returns [undefined] for a string that is no key,
    without falling back to the default record, and [calculateCost] throws
    on that model for every usage. *)
Theorem missing_target_is_undefined
    (σ : Effects.Store (num := num)) (usage : UsageTokens num)
    (model : string) (r : list string * string) :
  model ≠ "" → Effects.table σ !! model = None →
  find (rule_matches (toLowerCase model)) family_rules = Some r →
  Effects.table σ !! r.2 = None →
  Effects.getModelPricing (Some model) σ = (Some None, σ)
  ∧ (Effects.calculateCost usage (Some model) σ).1 = None.
Proof.
  intros Hne Hlook Hr Htarget.
  assert (Hrun : Effects.getModelPricing (Some model) σ = (Some None, σ)).
  { rewrite (getModelPricing_run _ _ Hne). unfold getProperty.
    rewrite Hlook, (matched_not_inherited _ _ Hr), Hr, Htarget.
    apply find_some in Hr as [Hin _]. apply list_elem_of_In in Hin.
    pose proof family_rules_not_inherited as Hall.
    rewrite Forall_forall in Hall. by rewrite (Hall _ Hin). }
  split; [exact Hrun|]. by apply (calculateCost_run _ _ _ _ Hrun).
Qed.

(** X12. On every store in which the keys the family rules resolve to are
    in the table, and every reference of the table and the default one have
    a record, [getModelPricing] never returns [undefined] and
    [calculateCost] never throws, for any usage and model; for a model
    that is no name inherited from [Object.prototype] the reference
    returned has a pricing record. The loaded module is such a store. *)
Theorem bound_targets_never_fail
    (σ : Effects.Store (num := num)) (usage : UsageTokens num)
    (model : option string) :
  targets_bound σ →
  ∃ entry cost,
    Effects.getModelPricing model σ = (Some (Some entry), σ)
    ∧ (inherited model = false → is_Some (Effects.records σ !! entry))
    ∧ (Effects.calculateCost usage model σ).1 = Some cost.
Proof.
  intros (Htargets & Hrecords & Hdefault).
  assert (∃ entry, Effects.getModelPricing model σ = (Some (Some entry), σ)
                   ∧ (inherited model = false →
                      is_Some (Effects.records σ !! entry)))
    as (entry & Hrun & Hrec).
  { destruct model as [model|]; [|by exists DEFAULT_PRICING].
    destruct (String.eqb_spec model "") as [->|Hne]; [by exists DEFAULT_PRICING|].
    rewrite (getModelPricing_run _ _ Hne). unfold getProperty at 1.
    destruct (Effects.table σ !! model) as [entry|] eqn:Hlook; [by eauto|].
    destruct (Object_prototype !! model) as [value|] eqn:Hproto.
    { exists value. split; [done|]. intros Hinh%inherited_false. congruence. }
    destruct (find (rule_matches (toLowerCase model)) family_rules) as [r|] eqn:Hr;
      [|by exists DEFAULT_PRICING].
    apply find_some in Hr as [Hin _]. apply list_elem_of_In in Hin.
    rewrite Forall_forall in Htargets. destruct (Htargets r Hin) as [entry Hentry].
    unfold getProperty. rewrite Hentry. eauto. }
  exists entry.
  destruct ((Effects.calculateCost usage model σ).1) as [cost|] eqn:Hcost.
  - exists cost. done.
  - exfalso. by apply (calculateCost_run _ _ _ _ Hrun) in Hcost.
Qed.

End OtherStores.

Lemma missing_target_is_undefined_witness :
  Effects.getModelPricing (num := float) (Some "Claude-Opus-4")
    {| Effects.table := ∅; Effects.records := objects |}
  = (Some None, {| Effects.table := ∅; Effects.records := objects |})
  ∧ (Effects.calculateCost (num := float)
       {| input_tokens := lit 1000; output_tokens := lit 10;
          cache_creation_input_tokens := None;
          cache_read_input_tokens := None |}
       (Some "Claude-Opus-4")
       {| Effects.table := ∅; Effects.records := objects |}).1 = None.
Proof.
  apply (missing_target_is_undefined _ _ _
           (["opus-4"; "opus-4.5"], "claude-opus-4-5-20250514"));
    by vm_compute.
Defined.

Lemma bound_targets_never_fail_witness :
  ∃ entry cost,
    Effects.getModelPricing (num := float) (Some "haiku") Effects.initial
    = (Some (Some entry), Effects.initial)
    ∧ (inherited (Some "haiku") = false →
       is_Some (Effects.records (num := float) Effects.initial !! entry))
    ∧ (Effects.calculateCost (num := float)
         {| input_tokens := lit 1000; output_tokens := lit 10;
            cache_creation_input_tokens := None;
            cache_read_input_tokens := None |}
         (Some "haiku") Effects.initial).1 = Some cost.
Proof.
  apply bound_targets_never_fail. split; [|split].
  - repeat apply Forall_cons_2; [..|apply Forall_nil_2]; eexists; by vm_compute.
  - intros key entry Hlook. cbn [Effects.table Effects.initial] in Hlook.
    destruct (MODEL_PRICING_object (num := float) _ _ Hlook) as (p & _ & Hp).
    by exists (evalLiteral p).
  - eexists. by vm_compute.
Defined.

(** ** What a call reads, and what a caller can write *)

Section Reads.

Context {num : Type} `{!JSNumber num}.



End Reads.



